(** * Rollup deployment SDK: transaction builder, deployment-hash resolver,
      retryable-ticket tracker

    A shallow embedding of three asynchronous functions of the SDK:

    - [createRollupPrepareTransactionRequest], which validates the parameters
      of a rollup and prepares the transaction that creates it;
    - [createRollupFetchTransactionHash], which finds the transaction that
      emitted the [RollupInitialized] event of a rollup;
    - [waitForRetryables] of
      [createTokenBridgePrepareSetWethGatewayTransactionReceipt], which waits
      for the retryable ticket a parent-chain transaction created.

    An [async] function is a computation that appends every call it makes to
    a collaborator (RPC client, cross-chain message library) to a call log
    and either resolves with a value or rejects with an error. *)

From Stdlib Require Import ZArith String List Lia.
From stdpp Require Import base option list gmap strings.

Local Open Scope string_scope.
Local Open Scope list_scope.
Local Open Scope Z_scope.

(** ** Values shared by the three functions *)

(** viem's [Address] and [Hash] are template-literal string types
    [`0x${string}`]; [===] and [Array.prototype.includes] compare them as
    strings. *)
Abbreviation Address := string (only parsing).
Abbreviation Hash := string (only parsing).

(** viem's [zeroAddress] constant. *)
Definition zeroAddress : Address := "0x0000000000000000000000000000000000000000".

(** What a rejected call carries.  The source throws [Error] objects that
    differ by message only; the constructors name them as the specification
    does and keep the values the message interpolates. *)
Inductive Error : Type :=
| UnsupportedParentChain                                (* validateParentChain *)
| InvalidBatchPoster                                    (* "params.batchPoster" can't be set to the zero address. *)
| InvalidValidatorSet                                   (* "params.validators" can't be empty or contain the zero address. *)
| FeeTokenNotSupported                                  (* "params.nativeToken" can only be used on AnyTrust chains. ... *)
| UnsupportedFeeTokenDecimals                           (* ... a token that uses 18 decimals. *)
| MissingGasBase                                        (* applyPercentIncrease without a base *)
| UnexpectedEventCount (rollup : Address) (found : nat) (* Expected to find 1 RollupInitialized event ... but found n *)
| MissingTransactionHash (rollup : Address)             (* No transactionHash found in RollupInitialized event ... *)
| UnexpectedTicketCount (found : nat)                   (* Unexpected number of retryable tickets: n *)
| TicketNotRedeemed (retryableCreationId : string)      (* Unexpected status for retryable ticket: id *)
| UncheckedCast                                         (* a value used at a type its TypeScript cast asserted without checking *)
| External (what : string).                             (* raised by a collaborator: RPC failure, JSON SyntaxError *)

Inductive Result (A : Type) : Type :=
| OK (a : A)
| Throw (e : Error).
Arguments OK {A} a.
Arguments Throw {A} e.

(** ** The RPC client *)

Record Chain : Type := { chain_id : Z }.

(** [fromBlock] / [toBlock] of a log query: a block number or a block tag. *)
Inductive BlockTag : Type :=
| BlockNumber (n : Z)
| Earliest
| Latest.

Record AbiParameter : Type := {
  abi_indexed : bool;
  abi_internalType : string;
  abi_name : string;
  abi_type : string
}.

Record AbiEvent : Type := {
  ev_anonymous : bool;
  ev_inputs : list AbiParameter;
  ev_name : string;
  ev_type : string
}.

Record GetLogsParameters : Type := {
  gl_address : Address;
  gl_event : AbiEvent;
  gl_fromBlock : BlockTag;
  gl_toBlock : BlockTag
}.

(** A log entry; only the field the resolver reads.  viem types it
    [Hash | null]. *)
Record Log : Type := { log_transactionHash : option Hash }.

Record PrepareTransactionRequestParameters : Type := {
  ptr_chain : option Chain;
  ptr_to : Address;
  ptr_data : string;
  ptr_value : Z;
  ptr_account : Address;
  ptr_gas : option Z
}.

(** The request the client hands back; [tx_gas] is [None] when the client
    left [gas] undefined. *)
Record TransactionRequest : Type := {
  tx_to : Address;
  tx_data : string;
  tx_value : Z;
  tx_account : Address;
  tx_gas : option Z
}.

(** The caller-supplied client: its chain (possibly undefined) and what each
    RPC method answers. *)
Record PublicClient : Type := {
  pc_chain : option Chain;
  pc_getLogs : GetLogsParameters -> Result (list Log);
  pc_prepareTransactionRequest : PrepareTransactionRequestParameters -> Result TransactionRequest;
  pc_decimals : Address -> Result Z
}.

(** ** Asynchronous computations with a call log *)

Inductive Call : Type :=
| CallGetLogs (q : GetLogsParameters)
| CallDecimals (token : Address)
| CallPrepareTransactionRequest (p : PrepareTransactionRequestParameters)
| CallGetL1ToL2Messages
| CallWaitForStatus (retryableCreationId : string).

Definition Async (A : Type) : Type := list Call -> Result A * list Call.

Definition ret {A} (a : A) : Async A := fun log => (OK a, log).

Definition throw {A} (e : Error) : Async A := fun log => (Throw e, log).

Definition bind {A B} (m : Async A) (k : A -> Async B) : Async B :=
  fun log =>
    match m log with
    | (OK a, log') => k a log'
    | (Throw e, log') => (Throw e, log')
    end.

(** A synchronous computation that may throw. *)
Definition lift {A} (r : Result A) : Async A := fun log => (r, log).

(** A call to a collaborator: logged, then answered. *)
Definition call {A} (c : Call) (answer : Result A) : Async A :=
  fun log => (answer, log ++ [c]).

Declare Scope async_scope.
Delimit Scope async_scope with async.
Notation "x <- m ;; k" := (bind m (fun x => k))
  (at level 100, m at next level, right associativity) : async_scope.
Notation "'check' m ;; k" := (bind m (fun _ : unit => k))
  (at level 100, m at next level, right associativity) : async_scope.
Local Open Scope async_scope.

(** [if (cond) throw e]. *)
Definition throwIf (cond : bool) (e : Error) : Async unit :=
  if cond then throw e else ret tt.

(** [Promise.all]: every promise of the list has been started (its calls are
    in the log) before the join; the join resolves with all the values, or
    rejects when one promise rejected.  JavaScript rejects with the rejection
    that happens first in time; the model takes the first in list order. *)
Fixpoint Promise_all {A} (ps : list (Async A)) : Async (list A) :=
  fun log =>
    match ps with
    | [] => (OK [], log)
    | p :: ps' =>
        let '(r, log1) := p log in
        let '(rs, log2) := Promise_all ps' log1 in
        (match r, rs with
         | Throw e, _ => Throw e
         | OK _, Throw e => Throw e
         | OK a, OK l => OK (a :: l)
         end, log2)
    end.

(** Running an async function from an empty log. *)
Definition run {A} (m : Async A) : Result A * list Call := m [].

(** ** Parts of the repository the three functions import *)

(** The [id]s of the chains of [./chains]. *)
Record Chains : Type := {
  mainnet : Z;
  arbitrumOne : Z;
  arbitrumNova : Z;
  sepolia : Z;
  holesky : Z;
  arbitrumSepolia : Z;
  nitroTestnodeL1 : Z;
  nitroTestnodeL2 : Z
}.

(** The parsed chain configuration; only the flag the builder reads
    ([arbitrum.DataAvailabilityCommittee]). *)
Record ChainConfig : Type := { DataAvailabilityCommittee : bool }.

Record RollupConfig : Type := { chainConfig : string }.

Record CreateRollupParams : Type := {
  config : RollupConfig;
  batchPoster : Address;
  validators : list Address;
  nativeToken : Address
}.

(** [{ ...defaults, ...params, maxDataSize }]. *)
Record CreateRollupFunctionInputs : Type := {
  fi_params : CreateRollupParams;
  fi_maxDataSize : Z
}.

(** An ABI, held as its JSON text. *)
Inductive Abi : Type := AbiJson (text : string).

(** The argument of viem's [encodeFunctionData]. *)
Record EncodeFunctionDataParameters : Type := {
  efd_abi : Abi;
  efd_functionName : string;
  efd_args : list CreateRollupFunctionInputs
}.

(** What the three functions take from outside: the helpers and tables they
    import from other files of the repository ([./chains],
    [./types/ParentChain], [./createRollupGetMaxDataSize], [./utils/getters],
    [./contracts], [./createRollupGetCallValue]), viem's
    [encodeFunctionData], which throws on arguments that do not fit the ABI
    (a malformed address, for one), and the JavaScript built-in
    [JSON.parse]. *)
Record Environment : Type := {
  chains : Chains;
  supportedParentChains : list Z;
  JSON_parse : string -> Result ChainConfig;
  createRollupGetMaxDataSize : Z -> Z;
  getRollupCreatorAddress : PublicClient -> Result Address;
  rollupCreator_abi : Abi;
  encodeFunctionData : EncodeFunctionDataParameters -> Result string;
  createRollupGetCallValue : CreateRollupFunctionInputs -> Z
}.

(** Modelled from the spec: [validateParentChain] of [./types/ParentChain]
    is missing from the sources.  It "validates network identity of the RPC
    client against a supported-network allow-list (fails with
    [UnsupportedParentChain] otherwise)" and yields the network id. *)
Definition validateParentChain (env : Environment) (publicClient : PublicClient) : Result Z :=
  match pc_chain publicClient with
  | Some c =>
      if bool_decide (chain_id c ∈ supportedParentChains env) then OK (chain_id c)
      else Throw UnsupportedParentChain
  | None => Throw UnsupportedParentChain
  end.

(** ** createRollupFetchTransactionHash.ts *)

Definition RollupInitializedEventAbi : AbiEvent := {|
  ev_anonymous := false;
  ev_inputs := [
    {| abi_indexed := false; abi_internalType := "bytes32";
       abi_name := "machineHash"; abi_type := "bytes32" |};
    {| abi_indexed := false; abi_internalType := "uint256";
       abi_name := "chainId"; abi_type := "uint256" |} ];
  ev_name := "RollupInitialized";
  ev_type := "event"
|}.

(** An object literal with computed keys: a key written twice keeps the
    later value. *)
Definition objectLiteral (entries : list (Z * Z)) : gmap Z Z :=
  foldl (fun o kv => <[ kv.1 := kv.2 ]> o) ∅ entries.

Definition earliestRollupCreatorDeploymentBlockNumber (c : Chains) : gmap Z Z :=
  objectLiteral [
    (* mainnet *)
    (mainnet c, 18736164);
    (arbitrumOne c, 150599584);
    (arbitrumNova c, 47798739);
    (* testnet *)
    (sepolia c, 4741823);
    (holesky c, 1083992);
    (arbitrumSepolia c, 654628);
    (* local nitro-testnode *)
    (nitroTestnodeL1 c, 0);
    (nitroTestnodeL2 c, 0) ].

(** [chainId in table ? table[chainId] : 'earliest']. *)
Definition fromBlock (c : Chains) (chainId : Z) : BlockTag :=
  match earliestRollupCreatorDeploymentBlockNumber c !! chainId with
  | Some n => BlockNumber n
  | None => Earliest
  end.

(** JavaScript's [!transactionHash] on a [Hash | null]: [null] and the empty
    string are falsy. *)
Definition falsy (h : option Hash) : bool :=
  match h with
  | None => true
  | Some s => bool_decide (s = "")
  end.

Definition createRollupFetchTransactionHash
    (env : Environment) (rollup : Address) (publicClient : PublicClient) : Async Hash :=
  chainId <- lift (validateParentChain env publicClient) ;;
  let fromBlock := fromBlock (chains env) chainId in
  (* Find the RollupInitialized event from that Rollup contract *)
  let q := {| gl_address := rollup; gl_event := RollupInitializedEventAbi;
              gl_fromBlock := fromBlock; gl_toBlock := Latest |} in
  rollupInitializedEvents <- call (CallGetLogs q) (pc_getLogs publicClient q) ;;
  check throwIf (negb (length rollupInitializedEvents =? 1)%nat)
          (UnexpectedEventCount rollup (length rollupInitializedEvents)) ;;
  (* Get the transaction hash that emitted that event *)
  match rollupInitializedEvents !! 0%nat with
  | None => throw (External "TypeError")
  | Some event0 =>
      let transactionHash := log_transactionHash event0 in
      if falsy transactionHash then throw (MissingTransactionHash rollup)
      else ret (default "" transactionHash) (* truthy here: the hash itself *)
  end.

(** ** [waitForRetryables] of createTokenBridgePrepareSetWethGatewayTransactionReceipt *)

(** [L1ToL2MessageStatus] of the cross-chain message library. *)
Inductive L1ToL2MessageStatus : Type :=
| NOT_YET_CREATED
| CREATION_FAILED
| FUNDS_DEPOSITED_ON_L2
| REDEEMED
| EXPIRED.

Global Instance L1ToL2MessageStatus_eq_dec : EqDecision L1ToL2MessageStatus.
Proof. solve_decision. Defined.

(** [Exclude<L1ToL2MessageStatus, L1ToL2MessageStatus.REDEEMED>]. *)
Inductive UnredeemedStatus : Type :=
| NotYetCreated
| CreationFailed
| FundsDepositedOnL2
| Expired.

Definition statusOfUnredeemed (s : UnredeemedStatus) : L1ToL2MessageStatus :=
  match s with
  | NotYetCreated => NOT_YET_CREATED
  | CreationFailed => CREATION_FAILED
  | FundsDepositedOnL2 => FUNDS_DEPOSITED_ON_L2
  | Expired => EXPIRED
  end.

(** [type RedeemedRetryableTicket = { status: REDEEMED; l2TxReceipt }]. *)
Record RedeemedRetryableTicket (R : Type) : Type := { l2TxReceipt : R }.
Arguments l2TxReceipt {R} _.

(** What [waitForStatus] resolves with: a redeemed ticket with the receipt of
    its redemption, or any other status and no receipt. *)
Inductive L1ToL2MessageWaitResult (R : Type) : Type :=
| WaitRedeemed (ticket : RedeemedRetryableTicket R)
| WaitUnredeemed (s : UnredeemedStatus).
Arguments WaitRedeemed {R} ticket.
Arguments WaitUnredeemed {R} s.

Definition status {R} (result : L1ToL2MessageWaitResult R) : L1ToL2MessageStatus :=
  match result with
  | WaitRedeemed _ => REDEEMED
  | WaitUnredeemed s => statusOfUnredeemed s
  end.

(** A retryable-ticket message: its id and what waiting for its status
    yields (the wait itself is the library's). *)
Record L1ToL2Message (R : Type) : Type := {
  retryableCreationId : string;
  msg_waitForStatus : Result (L1ToL2MessageWaitResult R)
}.
Arguments retryableCreationId {R} _.
Arguments msg_waitForStatus {R} _.

(** [message.waitForStatus()]. *)
Definition waitForStatus {R} (message : L1ToL2Message R) : Async (L1ToL2MessageWaitResult R) :=
  call (CallWaitForStatus (retryableCreationId message)) (msg_waitForStatus message).

(** [messagesResults as unknown as [RedeemedRetryableTicket]]: TypeScript
    does not check the cast; it is sound when every result is redeemed. *)
Definition asRedeemed {R} (result : L1ToL2MessageWaitResult R) : option (RedeemedRetryableTicket R) :=
  match result with
  | WaitRedeemed ticket => Some ticket
  | WaitUnredeemed _ => None
  end.

Section Tracker.
(** viem's and ethers' receipts, the ethers provider and the adapters
    between them ([./ethers-compat]). *)
Context {TransactionReceipt EthersTransactionReceipt OrbitPublicClient Provider : Type}.
Context (viemTransactionReceiptToEthersTransactionReceipt :
           TransactionReceipt -> EthersTransactionReceipt).
Context (ethersTransactionReceiptToViemTransactionReceipt :
           EthersTransactionReceipt -> TransactionReceipt).
Context (publicClientToProvider : OrbitPublicClient -> Provider).
(** [new L1TransactionReceipt(receipt).getL1ToL2Messages(provider)]. *)
Context (getL1ToL2Messages :
           EthersTransactionReceipt -> Provider ->
           Result (list (L1ToL2Message EthersTransactionReceipt))).

Definition waitForRetryables (txReceipt : TransactionReceipt)
    (orbitPublicClient : OrbitPublicClient) : Async (list TransactionReceipt) :=
  let ethersTxReceipt := viemTransactionReceiptToEthersTransactionReceipt txReceipt in
  let parentChainTxReceipt := ethersTxReceipt in
  let orbitProvider := publicClientToProvider orbitPublicClient in
  messages <- call CallGetL1ToL2Messages
                (getL1ToL2Messages parentChainTxReceipt orbitProvider) ;;
  messagesResults <- Promise_all (map waitForStatus messages) ;;
  check throwIf (negb (length messagesResults =? 1)%nat)
          (UnexpectedTicketCount (length messagesResults)) ;;
  match messagesResults !! 0%nat, messages !! 0%nat with
  | Some result0, Some message0 =>
      check throwIf (negb (bool_decide (status result0 = REDEEMED)))
              (TicketNotRedeemed (retryableCreationId message0)) ;;
      (* these type casts are both fine as we already checked everything above *)
      match mapM asRedeemed messagesResults with
      | Some tickets =>
          ret (map (fun result =>
                      ethersTransactionReceiptToViemTransactionReceipt (l2TxReceipt result))
                   tickets)
      | None => throw UncheckedCast
      end
  | _, _ => throw (External "TypeError")
  end.
End Tracker.

(** ** createRollupPrepareTransactionRequest *)

(** [GasOverrideOptions] and [TransactionRequestGasOverrides] of
    [./utils/gasOverrides]: [{ base: integer|unset, percentIncrease: integer }]. *)
Record GasOverrideOptions : Type := {
  base : option Z;
  percentIncrease : Z
}.

Record TransactionRequestGasOverrides : Type := {
  gasLimit : option GasOverrideOptions
}.

(** Modelled from the spec: [applyPercentIncrease] of [./utils/gasOverrides]
    is missing from the sources.  "Given an estimated-or-overridden base gas
    amount and a percent-increase, returns
    [base + floor(base * percentIncrease / 100)], using integer arithmetic
    throughout"; it "fails with [MissingGasBase] if no override base is given
    and RPC estimation also failed to populate an estimate".  [Z.div] is the
    floor division. *)
Definition applyPercentIncrease (base : option Z) (percentIncrease : Z) : Result Z :=
  match base with
  | Some b => OK (b + b * percentIncrease / 100)
  | None => Throw MissingGasBase
  end.

(** Modelled from the spec: [isCustomFeeTokenAddress] of [./utils] is missing
    from the sources.  "Native fee-token address (zero address = native gas
    token)": a fee token is custom when it is not the zero address. *)
Definition isCustomFeeTokenAddress (nativeToken : Address) : bool :=
  negb (bool_decide (nativeToken = zeroAddress)).

(** Modelled from the spec: [isAnyTrustChainConfig] of [./utils] is missing
    from the sources.  It reads the "boolean flag indicating whether the chain
    uses a committee-based data-availability mode". *)
Definition isAnyTrustChainConfig (chainConfig : ChainConfig) : bool :=
  DataAvailabilityCommittee chainConfig.

(** Modelled from the spec: [fetchDecimals] of [./utils/erc20] is missing from
    the sources.  It is "the one decimals read", [decimals(tokenAddress)], made
    through the client. *)
Definition fetchDecimals (address : Address) (publicClient : PublicClient) : Async Z :=
  call (CallDecimals address) (pc_decimals publicClient address).

(** [{ ...request, chainId }]. *)
Record CreateRollupTransactionRequest : Type := {
  request : TransactionRequest;
  chainId : Z
}.

(** [request.gas = gas]. *)
Definition setGas (request : TransactionRequest) (gas : Z) : TransactionRequest :=
  {| tx_to := tx_to request; tx_data := tx_data request; tx_value := tx_value request;
     tx_account := tx_account request; tx_gas := Some gas |}.

(** [a ?? b]. *)
Definition nullish {A} (a b : option A) : option A :=
  match a with
  | Some x => Some x
  | None => b
  end.

(** Encodes the function data for creating a rollup; it throws what
    [encodeFunctionData] throws. *)
Definition createRollupEncodeFunctionData
    (env : Environment) (args : list CreateRollupFunctionInputs) : Result string :=
  encodeFunctionData env
    {| efd_abi := rollupCreator_abi env;
       efd_functionName := "createRollup";
       efd_args := args |}.

(** The argument of [publicClient.prepareTransactionRequest], once its [to]
    and [data] properties have been evaluated (either may throw, in this
    order, before the client is called). *)
Definition requestParameters
    (env : Environment)
    (publicClient : PublicClient)
    (account : Address)
    (gasOverrides : option TransactionRequestGasOverrides)
    (paramsWithDefaults : CreateRollupFunctionInputs)
    (to : Address)
    (data : string)
    : PrepareTransactionRequestParameters := {|
  ptr_chain := pc_chain publicClient;
  ptr_to := to;
  ptr_data := data;
  ptr_value := createRollupGetCallValue env paramsWithDefaults;
  ptr_account := account;
  (* if the base gas limit override was provided, hardcode gas to 0 to skip estimation
     we'll set the actual value in the code below *)
  ptr_gas := match (gasOverrides ≫= gasLimit) ≫= base with
             | Some _ => Some 0
             | None => None
             end
|}.

Definition createRollupPrepareTransactionRequest
    (env : Environment)
    (params : CreateRollupParams)
    (account : Address)
    (publicClient : PublicClient)
    (gasOverrides : option TransactionRequestGasOverrides)
    (rollupCreatorAddressOverride : option Address)
    : Async CreateRollupTransactionRequest :=
  chainId <- lift (validateParentChain env publicClient) ;;
  check throwIf (bool_decide (batchPoster params = zeroAddress)) InvalidBatchPoster ;;
  check throwIf ((length (validators params) =? 0)%nat
                 || bool_decide (zeroAddress ∈ validators params))
          InvalidValidatorSet ;;
  chainConfig <- lift (JSON_parse env (chainConfig (config params))) ;;
  check (if isCustomFeeTokenAddress (nativeToken params) then
           (* custom fee token is only allowed for anytrust chains *)
           check throwIf (negb (isAnyTrustChainConfig chainConfig)) FeeTokenNotSupported ;;
           (* custom fee token is only allowed to have 18 decimals *)
           decimals <- fetchDecimals (nativeToken params) publicClient ;;
           throwIf (negb (decimals =? 18)) UnsupportedFeeTokenDecimals
         else ret tt) ;;
  let maxDataSize := createRollupGetMaxDataSize env chainId in
  let paramsWithDefaults := {| fi_params := params; fi_maxDataSize := maxDataSize |} in
  to <- lift (match rollupCreatorAddressOverride with
              | Some a => OK a
              | None => getRollupCreatorAddress env publicClient
              end) ;;
  data <- lift (createRollupEncodeFunctionData env [paramsWithDefaults]) ;;
  let p := requestParameters env publicClient account gasOverrides
             paramsWithDefaults to data in
  request <- call (CallPrepareTransactionRequest p)
               (pc_prepareTransactionRequest publicClient p) ;;
  (* potential gas overrides (gas limit) *)
  request <- match gasOverrides ≫= gasLimit with
             | Some gl =>
                 (* the ! is here because we should let it error in case we don't
                    have the estimated gas *)
                 gas <- lift (applyPercentIncrease
                                (nullish (base gl) (tx_gas request))
                                (percentIncrease gl)) ;;
                 ret (setGas request gas)
             | None => ret request
             end ;;
  ret {| request := request; chainId := chainId |}.

(** ** Conditions the properties are stated under *)

(** The parent chain is supported and the batch poster and the validators
    pass their checks (lines 138-146 of the builder). *)
Definition addressChecksPass
    (env : Environment) (publicClient : PublicClient) (params : CreateRollupParams)
    (chainId : Z) : Prop :=
  validateParentChain env publicClient = OK chainId
  /\ batchPoster params <> zeroAddress
  /\ validators params <> []
  /\ zeroAddress ∉ validators params.

(** Every check of the builder passes (lines 138-164): the address checks,
    the parse of the chain configuration and, for a custom fee token, the
    AnyTrust and decimals rules. *)
Definition validationPasses
    (env : Environment) (publicClient : PublicClient) (params : CreateRollupParams)
    (chainId : Z) : Prop :=
  addressChecksPass env publicClient params chainId
  /\ exists parsed,
      JSON_parse env (chainConfig (config params)) = OK parsed
      /\ (nativeToken params <> zeroAddress ->
          isAnyTrustChainConfig parsed = true
          /\ pc_decimals publicClient (nativeToken params) = OK 18).

(** The collaborator calls the fee-token block makes when it passes. *)
Definition feeTokenCalls (params : CreateRollupParams) : list Call :=
  if isCustomFeeTokenAddress (nativeToken params)
  then [CallDecimals (nativeToken params)]
  else [].

(** The environment with another default registry of creator addresses
    ([getRollupCreatorAddress]); everything else is kept. *)
Definition withGetRollupCreatorAddress
    (env : Environment) (lookup : PublicClient -> Result Address) : Environment := {|
  chains := chains env;
  supportedParentChains := supportedParentChains env;
  JSON_parse := JSON_parse env;
  createRollupGetMaxDataSize := createRollupGetMaxDataSize env;
  getRollupCreatorAddress := lookup;
  rollupCreator_abi := rollupCreator_abi env;
  encodeFunctionData := encodeFunctionData env;
  createRollupGetCallValue := createRollupGetCallValue env
|}.

(** ** Fixtures: a concrete environment and concrete collaborators *)

(** The chain ids viem and the SDK's [chains] module give these networks. *)
Definition knownChains : Chains := {|
  mainnet := 1;
  arbitrumOne := 42161;
  arbitrumNova := 42170;
  sepolia := 11155111;
  holesky := 17000;
  arbitrumSepolia := 421614;
  nitroTestnodeL1 := 1337;
  nitroTestnodeL2 := 412346
|}.

Definition dq : string := String (Ascii.ascii_of_nat 34) EmptyString.

(** [{"arbitrum":{"DataAvailabilityCommittee":true}}] and its rollup
    counterpart. *)
Definition anyTrustJson : string :=
  "{" +:+ dq +:+ "arbitrum" +:+ dq +:+ ":{" +:+ dq +:+ "DataAvailabilityCommittee" +:+ dq +:+ ":true}}".
Definition rollupJson : string :=
  "{" +:+ dq +:+ "arbitrum" +:+ dq +:+ ":{" +:+ dq +:+ "DataAvailabilityCommittee" +:+ dq +:+ ":false}}".

(** A stand-in for [JSON.parse] that knows the two documents above and
    rejects every other string. *)
Definition demoParse (s : string) : Result ChainConfig :=
  if bool_decide (s = anyTrustJson) then OK {| DataAvailabilityCommittee := true |}
  else if bool_decide (s = rollupJson) then OK {| DataAvailabilityCommittee := false |}
  else Throw (External "SyntaxError").

(** A stand-in for [encodeFunctionData] that rejects, as viem does, an
    argument one address of which is not [0x] and forty hexadecimal digits. *)
Definition isHexDigit (c : Ascii.ascii) : bool :=
  let n := Ascii.nat_of_ascii c in
  ((48 <=? n) && (n <=? 57) || (65 <=? n) && (n <=? 70) || (97 <=? n) && (n <=? 102))%nat.

Fixpoint allHexDigits (s : string) : bool :=
  match s with
  | EmptyString => true
  | String c rest => isHexDigit c && allHexDigits rest
  end.

Definition isAddress (s : string) : bool :=
  bool_decide (String.substring 0 2 s = "0x")
  && (String.length s =? 42)%nat
  && allHexDigits (String.substring 2 40 s).

Definition demoEncode (p : EncodeFunctionDataParameters) : Result string :=
  if forallb (fun inputs =>
                isAddress (batchPoster (fi_params inputs))
                && forallb isAddress (validators (fi_params inputs))
                && isAddress (nativeToken (fi_params inputs)))
       (efd_args p)
  then OK "0xcb73d6e2"
  else Throw (External "InvalidAddressError").

Definition demoEnv : Environment := {|
  chains := knownChains;
  supportedParentChains := [1; 42161; 42170; 11155111; 17000; 421614; 1337; 412346];
  JSON_parse := demoParse;
  createRollupGetMaxDataSize := fun _ => 104857;
  getRollupCreatorAddress := fun _ => OK "0x90d68b056c411015eae3ec0b98ad94e2c91419f1"%string;
  rollupCreator_abi := AbiJson "[...]";
  encodeFunctionData := demoEncode;
  createRollupGetCallValue := fun _ => 0
|}.

(** A client on chain [id] that answers every log query with [logs], every
    preparation with the request as asked and [gas] as estimated when the
    caller fixed none, and every decimals read with [decimals]. *)
Definition demoClient (id : option Z) (logs : list Log) (gas : option Z) (decimals : Z)
    : PublicClient := {|
  pc_chain := (fun i => {| chain_id := i |}) <$> id;
  pc_getLogs := fun _ => OK logs;
  pc_prepareTransactionRequest := fun p =>
    OK {| tx_to := ptr_to p; tx_data := ptr_data p; tx_value := ptr_value p;
          tx_account := ptr_account p; tx_gas := nullish (ptr_gas p) gas |};
  pc_decimals := fun _ => OK decimals
|}.

Definition demoRollup : Address := "0x1111111111111111111111111111111111111111".
Definition demoHash : Hash :=
  "0x5b0b49e2f82c1ab1a8e7a4e7e4a5d8e3c2b1a09f8e7d6c5b4a39281706f5e4d3".

Definition demoAccount : Address := "0x4444444444444444444444444444444444444444".
Definition demoPoster : Address := "0x2222222222222222222222222222222222222222".
Definition demoValidator : Address := "0x3333333333333333333333333333333333333333".
Definition demoToken : Address := "0x5555555555555555555555555555555555555555".
Definition demoCreator : Address := "0x90d68b056c411015eae3ec0b98ad94e2c91419f1".

Definition demoParams (json : string) (poster : Address) (vals : list Address)
    (token : Address) : CreateRollupParams := {|
  config := {| chainConfig := json |};
  batchPoster := poster;
  validators := vals;
  nativeToken := token
|}.

(** A rollup on mainnet paying fees in the native gas token, and an AnyTrust
    chain paying them in [demoToken]. *)
Definition rollupParams : CreateRollupParams :=
  demoParams rollupJson demoPoster [demoValidator] zeroAddress.
Definition anyTrustParams : CreateRollupParams :=
  demoParams anyTrustJson demoPoster [demoValidator] demoToken.

(** [gasOverrides: { gasLimit: { base, percentIncrease } }]. *)
Definition demoOverrides (b : option Z) (pct : Z) : option TransactionRequestGasOverrides :=
  Some {| gasLimit := Some {| base := b; percentIncrease := pct |} |}.

(** The request [demoClient] answers a mainnet preparation with. *)
Definition demoPrepared (gas : option Z) : TransactionRequest := {|
  tx_to := demoCreator; tx_data := "0xcb73d6e2"; tx_value := 0;
  tx_account := demoAccount; tx_gas := gas
|}.

(** Tracker fixtures: receipts are named by strings, the adapters tag them. *)
Definition demoToEthers (r : string) : string := "ethers:" +:+ r.
Definition demoToViem (r : string) : string := "viem:" +:+ r.
Definition demoProvider (orbit : string) : string := "provider:" +:+ orbit.

Definition demoMessage (id : string)
    (outcome : Result (L1ToL2MessageWaitResult string)) : L1ToL2Message string :=
  {| retryableCreationId := id; msg_waitForStatus := outcome |}.

Definition redeemedMessage : L1ToL2Message string :=
  demoMessage "0xaa01" (OK (WaitRedeemed {| l2TxReceipt := "redeem-aa01" |})).
Definition expiredMessage : L1ToL2Message string :=
  demoMessage "0xbb02" (OK (WaitUnredeemed Expired)).
Definition rejectedMessage : L1ToL2Message string :=
  demoMessage "0xcc03" (Throw (External "timeout")).

(** A client on chain [id] every RPC method of which rejects. *)
Definition failingClient (id : option Z) (what : string) : PublicClient := {|
  pc_chain := (fun i => {| chain_id := i |}) <$> id;
  pc_getLogs := fun _ => Throw (External what);
  pc_prepareTransactionRequest := fun _ => Throw (External what);
  pc_decimals := fun _ => Throw (External what)
|}.

(** ** Reasoning about asynchronous computations *)

Lemma run_bind_lift_OK {A B} (r : Result A) (a : A) (k : A -> Async B) log :
  r = OK a -> bind (lift r) k log = k a log.
Proof. intros ->. reflexivity. Qed.

Lemma run_bind_lift_Throw {A B} (r : Result A) e (k : A -> Async B) log :
  r = Throw e -> bind (lift r) k log = (Throw e, log).
Proof. intros ->. reflexivity. Qed.

(** ** The deployment-hash resolver *)

(** Every chain the table names has a tabulated block. *)
Lemma fromBlock_tabulated (c : Chains) (id : Z) :
  id ∈ [mainnet c; arbitrumOne c; arbitrumNova c; sepolia c; holesky c;
        arbitrumSepolia c; nitroTestnodeL1 c; nitroTestnodeL2 c] ->
  exists n, fromBlock c id = BlockNumber n.
Proof.
  intros Hin. unfold fromBlock, earliestRollupCreatorDeploymentBlockNumber, objectLiteral.
  cbn [foldl fst snd].
  repeat (rewrite lookup_insert; case_decide; [eexists; reflexivity|]).
  exfalso. rewrite !elem_of_cons, elem_of_nil in Hin. intuition congruence.
Qed.

(** A chain the table does not name is scanned from genesis. *)
Lemma fromBlock_untabulated (c : Chains) (id : Z) :
  id ∉ [mainnet c; arbitrumOne c; arbitrumNova c; sepolia c; holesky c;
        arbitrumSepolia c; nitroTestnodeL1 c; nitroTestnodeL2 c] ->
  fromBlock c id = Earliest.
Proof.
  intros Hout. unfold fromBlock, earliestRollupCreatorDeploymentBlockNumber, objectLiteral.
  cbn [foldl fst snd].
  repeat (rewrite lookup_insert_ne;
          [|intros Heq; apply Hout; rewrite <- Heq, !elem_of_cons; auto 10]).
  now rewrite lookup_empty.
Qed.

Example fromBlock_mainnet : fromBlock knownChains 1 = BlockNumber 18736164.
Proof. vm_compute. reflexivity. Qed.

Example fromBlock_arbitrumSepolia : fromBlock knownChains 421614 = BlockNumber 654628.
Proof. vm_compute. reflexivity. Qed.

Example fromBlock_goerli : fromBlock knownChains 5 = Earliest.
Proof. vm_compute. reflexivity. Qed.

(** The outcome once the parent chain is validated and the log query has
    answered; the lookup of the first event never fails behind the count
    check. *)
Lemma fetchTransactionHash_answered
    (env : Environment) (rollup : Address) (publicClient : PublicClient)
    (chainId : Z) (logs : list Log) :
  validateParentChain env publicClient = OK chainId ->
  pc_getLogs publicClient
    {| gl_address := rollup; gl_event := RollupInitializedEventAbi;
       gl_fromBlock := fromBlock (chains env) chainId; gl_toBlock := Latest |} = OK logs ->
  fst (run (createRollupFetchTransactionHash env rollup publicClient))
  = match logs with
    | [event] =>
        match log_transactionHash event with
        | Some h => if bool_decide (h = "") then Throw (MissingTransactionHash rollup)
                    else OK h
        | None => Throw (MissingTransactionHash rollup)
        end
    | _ => Throw (UnexpectedEventCount rollup (length logs))
    end.
Proof.
  intros Hchain Hlogs.
  unfold createRollupFetchTransactionHash, run.
  rewrite (run_bind_lift_OK _ _ _ _ Hchain).
  unfold bind at 1, call. rewrite Hlogs.
  destruct logs as [|event [|event' logs]]; try reflexivity.
  cbn. destruct (log_transactionHash event) as [h|]; [|reflexivity].
  cbn. now case_bool_decide.
Qed.

(** C4.  Once the parent chain is validated and the log query for the rollup
    address has answered: a single event that carries a (non-empty, as every
    [0x...] hash is) transaction hash makes the call return that hash; a
    number of events other than one makes it fail with
    [UnexpectedEventCount]; a single event without a transaction hash makes
    it fail with [MissingTransactionHash]. *)
Theorem fetchTransactionHash_by_event_count
    (env : Environment) (rollup : Address) (publicClient : PublicClient)
    (chainId : Z) (logs : list Log) :
  validateParentChain env publicClient = OK chainId ->
  pc_getLogs publicClient
    {| gl_address := rollup; gl_event := RollupInitializedEventAbi;
       gl_fromBlock := fromBlock (chains env) chainId; gl_toBlock := Latest |} = OK logs ->
  let outcome := fst (run (createRollupFetchTransactionHash env rollup publicClient)) in
  (forall event h,
      logs = [event] -> log_transactionHash event = Some h -> h <> "" ->
      outcome = OK h)
  /\ (length logs <> 1%nat ->
      outcome = Throw (UnexpectedEventCount rollup (length logs)))
  /\ (forall event,
      logs = [event] -> log_transactionHash event = None ->
      outcome = Throw (MissingTransactionHash rollup)).
Proof.
  intros Hchain Hlogs outcome. subst outcome.
  unfold createRollupFetchTransactionHash, run.
  rewrite (run_bind_lift_OK _ _ _ _ Hchain).
  unfold bind at 1, call. rewrite Hlogs.
  repeat split.
  - intros event h -> Hh Hne. cbn. rewrite Hh. cbn.
    rewrite bool_decide_eq_false_2 by assumption. reflexivity.
  - intros Hlen. unfold bind, throwIf.
    destruct (Nat.eqb_spec (length logs) 1); [contradiction|]. reflexivity.
  - intros event -> Hh. cbn. rewrite Hh. reflexivity.
Qed.

(** C7.  On a validated parent chain the call issues exactly one log query,
    for the initialization event of the rollup address; its lower bound is
    the tabulated earliest-deployment block of the chain when the table has
    the chain id and ['earliest'] otherwise, and its upper bound is
    ['latest']. *)
Theorem fetchTransactionHash_scan_bounds
    (env : Environment) (rollup : Address) (publicClient : PublicClient) (chainId : Z) :
  validateParentChain env publicClient = OK chainId ->
  exists q,
    snd (run (createRollupFetchTransactionHash env rollup publicClient)) = [CallGetLogs q]
    /\ gl_address q = rollup
    /\ gl_event q = RollupInitializedEventAbi
    /\ gl_toBlock q = Latest
    /\ (forall n,
         earliestRollupCreatorDeploymentBlockNumber (chains env) !! chainId = Some n ->
         gl_fromBlock q = BlockNumber n)
    /\ (earliestRollupCreatorDeploymentBlockNumber (chains env) !! chainId = None ->
         gl_fromBlock q = Earliest).
Proof.
  intros Hchain. eexists. split.
  - unfold createRollupFetchTransactionHash, run.
    rewrite (run_bind_lift_OK _ _ _ _ Hchain).
    unfold bind at 1, call.
    destruct (pc_getLogs publicClient _) as [logs|e]; [|reflexivity].
    unfold bind, throwIf.
    destruct (negb (length logs =? 1)%nat); [reflexivity|].
    cbn. destruct (logs !! 0%nat) as [event0|]; [|reflexivity].
    destruct (falsy (log_transactionHash event0)); reflexivity.
  - cbn [gl_address gl_event gl_toBlock gl_fromBlock]. unfold fromBlock.
    repeat split.
    + intros n Hn. now rewrite Hn.
    + intros Hn. now rewrite Hn.
Qed.

(** ** The retryable-ticket tracker *)

Section PromiseAll.
Context {R : Type}.
Implicit Types (messages : list (L1ToL2Message R)) (log : list Call).

(** Every wait is started, whatever the waits yield. *)
Lemma Promise_all_waits_started messages log :
  snd (Promise_all (map waitForStatus messages) log)
  = log ++ map (fun m => CallWaitForStatus (retryableCreationId m)) messages.
Proof.
  revert log. induction messages as [|m ms IH]; intros log; cbn [Promise_all map snd].
  - now rewrite app_nil_r.
  - unfold waitForStatus at 1, call.
    specialize (IH (log ++ [CallWaitForStatus (retryableCreationId m)])).
    destruct (Promise_all (map waitForStatus ms) _) as [rs log2]. cbn in *.
    now rewrite IH, <- app_assoc.
Qed.

(** When every wait resolves, the join resolves with the results in order. *)
Lemma Promise_all_waits_resolved messages results log :
  Forall2 (fun m r => msg_waitForStatus m = OK r) messages results ->
  fst (Promise_all (map waitForStatus messages) log) = OK results.
Proof.
  intros Hall. revert log.
  induction Hall as [|m r ms rs Hm _ IH]; intros log; cbn [Promise_all map fst];
    [reflexivity|].
  unfold waitForStatus at 1, call.
  specialize (IH (log ++ [CallWaitForStatus (retryableCreationId m)])).
  destruct (Promise_all (map waitForStatus ms) _) as [rs' log2]. cbn in *.
  now rewrite Hm, IH.
Qed.

(** When some wait rejects, the join rejects with the rejection of one of
    the rejected waits. *)
Lemma Promise_all_waits_rejected messages log :
  Exists (fun m => exists e, msg_waitForStatus m = Throw e) messages ->
  exists m e, m ∈ messages /\ msg_waitForStatus m = Throw e
              /\ fst (Promise_all (map waitForStatus messages) log) = Throw e.
Proof.
  revert log. induction messages as [|m ms IH]; intros log Hex.
  - inversion Hex.
  - cbn [Promise_all map]. unfold waitForStatus at 1, call.
    destruct (msg_waitForStatus m) as [r|e] eqn:Hm.
    + assert (Hms : Exists (fun m => exists e, msg_waitForStatus m = Throw e) ms).
      { inversion Hex as [? ? [e He]|]; subst; [congruence|assumption]. }
      destruct (IH (log ++ [CallWaitForStatus (retryableCreationId m)]) Hms)
        as (m' & e & Hin & Hm' & Hjoin).
      exists m', e. split; [now apply list_elem_of_further|]. split; [assumption|].
      destruct (Promise_all (map waitForStatus ms) _) as [rs log2]. cbn in *.
      now rewrite Hjoin.
    + exists m, e. split; [apply list_elem_of_here|]. split; [assumption|].
      now destruct (Promise_all (map waitForStatus ms) _).
Qed.

Lemma waits_resolved_results messages :
  Forall (fun m => exists r, msg_waitForStatus m = OK r) messages ->
  exists results, Forall2 (fun m r => msg_waitForStatus m = OK r) messages results.
Proof.
  induction 1 as [|m ms [r Hr] _ [rs IH]].
  - exists []. constructor.
  - exists (r :: rs). now constructor.
Qed.

Lemma status_redeemed_inv (result : L1ToL2MessageWaitResult R) :
  status result = REDEEMED -> exists ticket, result = WaitRedeemed ticket.
Proof.
  destruct result as [ticket|s]; [now exists ticket|].
  destruct s; discriminate.
Qed.

End PromiseAll.

Section TrackerProperties.
Context {TransactionReceipt EthersTransactionReceipt OrbitPublicClient Provider : Type}.
Context (viemToEthers : TransactionReceipt -> EthersTransactionReceipt).
Context (ethersToViem : EthersTransactionReceipt -> TransactionReceipt).
Context (publicClientToProvider : OrbitPublicClient -> Provider).
Context (getL1ToL2Messages :
           EthersTransactionReceipt -> Provider ->
           Result (list (L1ToL2Message EthersTransactionReceipt))).

Local Abbreviation track :=
  (waitForRetryables viemToEthers ethersToViem publicClientToProvider getL1ToL2Messages).

(** The whole run on a receipt that derives one message whose wait
    resolves. *)
Lemma waitForRetryables_single_run
    (txReceipt : TransactionReceipt) (orbitPublicClient : OrbitPublicClient)
    (message : L1ToL2Message EthersTransactionReceipt)
    (result : L1ToL2MessageWaitResult EthersTransactionReceipt) :
  getL1ToL2Messages (viemToEthers txReceipt) (publicClientToProvider orbitPublicClient)
    = OK [message] ->
  msg_waitForStatus message = OK result ->
  run (track txReceipt orbitPublicClient)
  = (match result with
     | WaitRedeemed ticket => OK [ethersToViem (l2TxReceipt ticket)]
     | WaitUnredeemed _ => Throw (TicketNotRedeemed (retryableCreationId message))
     end,
     [CallGetL1ToL2Messages; CallWaitForStatus (retryableCreationId message)]).
Proof.
  intros Hmessages Hwait.
  unfold waitForRetryables, run.
  unfold bind at 1, call. rewrite Hmessages.
  unfold bind at 1. cbn [map Promise_all].
  unfold waitForStatus at 1, call. rewrite Hwait.
  destruct result as [ticket|[]]; reflexivity.
Qed.

(** The outcome when every wait resolves; neither the lookups of the first
    result and message nor the cast fail behind the two guards. *)
Lemma waitForRetryables_resolved
    (txReceipt : TransactionReceipt) (orbitPublicClient : OrbitPublicClient)
    (messages : list (L1ToL2Message EthersTransactionReceipt))
    (results : list (L1ToL2MessageWaitResult EthersTransactionReceipt)) :
  getL1ToL2Messages (viemToEthers txReceipt) (publicClientToProvider orbitPublicClient)
    = OK messages ->
  Forall2 (fun m r => msg_waitForStatus m = OK r) messages results ->
  fst (run (track txReceipt orbitPublicClient))
  = match messages, results with
    | [message], [WaitRedeemed ticket] => OK [ethersToViem (l2TxReceipt ticket)]
    | [message], [WaitUnredeemed _] =>
        Throw (TicketNotRedeemed (retryableCreationId message))
    | _, _ => Throw (UnexpectedTicketCount (length results))
    end.
Proof.
  intros Hmessages Hresults.
  pose proof (Promise_all_waits_resolved messages results [CallGetL1ToL2Messages] Hresults)
    as Hjoin.
  unfold waitForRetryables, run, bind at 1, call.
  rewrite Hmessages. unfold bind at 1. cbn [app].
  destruct (Promise_all (map waitForStatus messages) [CallGetL1ToL2Messages])
    as [joined log]. cbn [fst] in Hjoin. subst joined.
  destruct Hresults as [|m r ms rs Hm Hrest]; [reflexivity|].
  destruct Hrest as [|m' r' ms' rs' Hm' Hrest'].
  - destruct r as [ticket|[]]; reflexivity.
  - reflexivity.
Qed.

(** C5.  When the parent receipt derives exactly one message and its wait
    resolves: a redeemed ticket makes the call return exactly one receipt,
    the converted receipt of the redemption; any other status makes it fail
    with [TicketNotRedeemed] (so no receipts are returned); and a result
    whose status is redeemed is a redeemed ticket. *)
Theorem waitForRetryables_single_ticket
    (txReceipt : TransactionReceipt) (orbitPublicClient : OrbitPublicClient)
    (message : L1ToL2Message EthersTransactionReceipt)
    (result : L1ToL2MessageWaitResult EthersTransactionReceipt) :
  getL1ToL2Messages (viemToEthers txReceipt) (publicClientToProvider orbitPublicClient)
    = OK [message] ->
  msg_waitForStatus message = OK result ->
  let outcome := fst (run (track txReceipt orbitPublicClient)) in
  (forall ticket, result = WaitRedeemed ticket ->
                  outcome = OK [ethersToViem (l2TxReceipt ticket)])
  /\ (status result <> REDEEMED ->
      outcome = Throw (TicketNotRedeemed (retryableCreationId message)))
  /\ (status result = REDEEMED -> exists ticket, result = WaitRedeemed ticket).
Proof.
  intros Hmessages Hwait outcome. subst outcome.
  rewrite (waitForRetryables_single_run _ _ _ _ Hmessages Hwait).
  repeat split.
  - intros ticket ->. reflexivity.
  - intros Hstatus. destruct result as [ticket|s]; [|reflexivity].
    now contradiction Hstatus.
  - apply status_redeemed_inv.
Qed.

(** C6, as the code has it.  When the parent receipt derives [messages]: a
    wait is started for every message, in order, whatever the outcome; if
    every wait resolves and the number of messages is not one, the call fails
    with [UnexpectedTicketCount]; and the join comes before the count check:
    if some wait rejects, the call fails with the rejection of a rejected
    wait, whatever the number of messages. *)
Theorem waitForRetryables_ticket_count
    (txReceipt : TransactionReceipt) (orbitPublicClient : OrbitPublicClient)
    (messages : list (L1ToL2Message EthersTransactionReceipt)) :
  getL1ToL2Messages (viemToEthers txReceipt) (publicClientToProvider orbitPublicClient)
    = OK messages ->
  snd (run (track txReceipt orbitPublicClient))
    = CallGetL1ToL2Messages
        :: map (fun m => CallWaitForStatus (retryableCreationId m)) messages
  /\ (Forall (fun m => exists r, msg_waitForStatus m = OK r) messages ->
      length messages <> 1%nat ->
      fst (run (track txReceipt orbitPublicClient))
        = Throw (UnexpectedTicketCount (length messages)))
  /\ (Exists (fun m => exists e, msg_waitForStatus m = Throw e) messages ->
      exists m e, m ∈ messages /\ msg_waitForStatus m = Throw e
                  /\ fst (run (track txReceipt orbitPublicClient)) = Throw e).
Proof.
  intros Hmessages.
  pose proof (Promise_all_waits_started messages [CallGetL1ToL2Messages]) as Hlog.
  pose proof (fun results =>
                Promise_all_waits_resolved messages results [CallGetL1ToL2Messages])
    as Hresolved.
  pose proof (Promise_all_waits_rejected messages [CallGetL1ToL2Messages]) as Hrejected.
  remember (run (track txReceipt orbitPublicClient)) as out eqn:Hout.
  unfold waitForRetryables, run, bind at 1, call in Hout.
  rewrite Hmessages in Hout. unfold bind at 1 in Hout. cbn [app] in Hout.
  destruct (Promise_all (map waitForStatus messages) [CallGetL1ToL2Messages])
    as [[results|e] log]; cbn [fst snd] in Hlog, Hresolved, Hrejected; subst log.
  - (* the join resolved *)
    repeat split.
    + subst out. unfold bind at 1, throwIf.
      destruct (negb (length results =? 1)%nat); [reflexivity|]. cbn [ret].
      destruct (results !! 0%nat) as [result0|]; [|reflexivity].
      destruct (messages !! 0%nat) as [message0|]; [|reflexivity].
      unfold bind.
      destruct (negb (bool_decide (status result0 = REDEEMED))); [reflexivity|].
      destruct (mapM asRedeemed results); reflexivity.
    + intros Hall Hlen.
      destruct (waits_resolved_results messages Hall) as [results' Hresults].
      specialize (Hresolved results' Hresults). injection Hresolved as ->.
      subst out. unfold bind, throwIf.
      rewrite <- (Forall2_length _ _ _ Hresults).
      destruct (Nat.eqb_spec (length messages) 1); [contradiction|]. reflexivity.
    + intros Hex. destruct (Hrejected Hex) as (m & e & _ & _ & Hjoin). discriminate.
  - (* the join rejected *)
    subst out. repeat split.
    + intros Hall _.
      destruct (waits_resolved_results messages Hall) as [results' Hresults].
      specialize (Hresolved results' Hresults). discriminate.
    + intros Hex. destruct (Hrejected Hex) as (m & e' & Hin & Hm & Hjoin).
      injection Hjoin as ->. now exists m, e'.
Qed.

End TrackerProperties.

(** ** The deployment transaction builder *)

Section BuilderProperties.
Context (env : Environment).
Context (params : CreateRollupParams) (account : Address) (publicClient : PublicClient).
Context (gasOverrides : option TransactionRequestGasOverrides).
Context (rollupCreatorAddressOverride : option Address).

Local Abbreviation build :=
  (createRollupPrepareTransactionRequest env params account publicClient
     gasOverrides rollupCreatorAddressOverride).

(** [rollupCreatorAddressOverride ?? getRollupCreatorAddress(publicClient)]. *)
Local Abbreviation creatorAddress :=
  (match rollupCreatorAddressOverride with
   | Some a => OK a
   | None => getRollupCreatorAddress env publicClient
   end).

(** [createRollupEncodeFunctionData([paramsWithDefaults])]. *)
Local Abbreviation callData chainId :=
  (createRollupEncodeFunctionData env
     [{| fi_params := params; fi_maxDataSize := createRollupGetMaxDataSize env chainId |}]).

Local Abbreviation parametersFor chainId to data :=
  (requestParameters env publicClient account gasOverrides
     {| fi_params := params; fi_maxDataSize := createRollupGetMaxDataSize env chainId |}
     to data).

(** Lines 166-189: from the resolution of the creator address on. *)
Local Abbreviation preparation chainId :=
  (to <- lift creatorAddress ;;
   data <- lift (callData chainId) ;;
   request <- call (CallPrepareTransactionRequest (parametersFor chainId to data))
                (pc_prepareTransactionRequest publicClient (parametersFor chainId to data)) ;;
   request <- match gasOverrides ≫= gasLimit with
              | Some gl =>
                  gas <- lift (applyPercentIncrease
                                 (nullish (base gl) (tx_gas request))
                                 (percentIncrease gl)) ;;
                  ret (setGas request gas)
              | None => ret request
              end ;;
   ret {| request := request; chainId := chainId |}).

Lemma validators_check_passes :
  validators params <> [] -> zeroAddress ∉ validators params ->
  (length (validators params) =? 0)%nat || bool_decide (zeroAddress ∈ validators params)
  = false.
Proof.
  intros Hne Hout. rewrite (bool_decide_eq_false_2 _ Hout), orb_false_r.
  destruct (validators params); [contradiction|reflexivity].
Qed.

Lemma validators_check_fails :
  validators params = [] \/ zeroAddress ∈ validators params ->
  (length (validators params) =? 0)%nat || bool_decide (zeroAddress ∈ validators params)
  = true.
Proof.
  intros [-> | Hin]; [reflexivity|].
  rewrite (bool_decide_eq_true_2 _ Hin). apply orb_true_r.
Qed.

(** The run up to the parse of the chain configuration, when the three
    address checks pass. *)
Lemma build_after_address_checks chainId log :
  addressChecksPass env publicClient params chainId ->
  build log
  = bind (lift (JSON_parse env (chainConfig (config params))))
      (fun chainConfig =>
         check (if isCustomFeeTokenAddress (nativeToken params) then
                  check throwIf (negb (isAnyTrustChainConfig chainConfig))
                          FeeTokenNotSupported ;;
                  decimals <- fetchDecimals (nativeToken params) publicClient ;;
                  throwIf (negb (decimals =? 18)) UnsupportedFeeTokenDecimals
                else ret tt) ;;
         preparation chainId) log.
Proof.
  intros (Hchain & Hposter & Hne & Hout).
  unfold createRollupPrepareTransactionRequest.
  rewrite (run_bind_lift_OK _ _ _ _ Hchain).
  unfold bind at 1, throwIf at 1.
  rewrite (bool_decide_eq_false_2 _ Hposter). cbn [ret].
  unfold bind at 1, throwIf at 1.
  rewrite (validators_check_passes Hne Hout). reflexivity.
Qed.

(** The run when every check passes: what lines 166-189 do, after the calls
    of the fee-token block. *)
Lemma build_after_fee_token chainId :
  validationPasses env publicClient params chainId ->
  run build = preparation chainId (feeTokenCalls params).
Proof.
  intros (Haddr & cfg & Hparse & Hfee).
  unfold run. rewrite (build_after_address_checks chainId [] Haddr).
  rewrite (run_bind_lift_OK _ _ _ _ Hparse).
  unfold feeTokenCalls, isCustomFeeTokenAddress in *.
  case_bool_decide as Htoken; cbn [negb].
  - (* native gas token *)
    reflexivity.
  - (* custom fee token *)
    destruct (Hfee Htoken) as [Hany Hdecimals].
    unfold bind at 1. unfold bind at 1, throwIf at 1. rewrite Hany. cbn [negb ret].
    unfold bind at 1, fetchDecimals, call. rewrite Hdecimals.
    reflexivity.
Qed.

(** The whole run when every check passes, the creator address resolves and
    the call data encodes: the decimals read (for a custom fee token), then
    the request preparation, then the gas override. *)
Lemma build_after_validation chainId to data :
  validationPasses env publicClient params chainId ->
  creatorAddress = OK to ->
  callData chainId = OK data ->
  run build
  = (match pc_prepareTransactionRequest publicClient (parametersFor chainId to data) with
     | Throw e => Throw e
     | OK request =>
         match gasOverrides ≫= gasLimit with
         | Some gl =>
             match applyPercentIncrease (nullish (base gl) (tx_gas request))
                     (percentIncrease gl) with
             | OK gas => OK {| request := setGas request gas; chainId := chainId |}
             | Throw e => Throw e
             end
         | None => OK {| request := request; chainId := chainId |}
         end
     end,
     feeTokenCalls params
       ++ [CallPrepareTransactionRequest (parametersFor chainId to data)]).
Proof.
  intros Hvalid Hto Hdata.
  rewrite (build_after_fee_token chainId Hvalid).
  rewrite (run_bind_lift_OK _ _ _ _ Hto).
  rewrite (run_bind_lift_OK _ _ _ _ Hdata).
  unfold bind at 1, call.
  destruct (pc_prepareTransactionRequest publicClient _) as [request0|e]; [|reflexivity].
  destruct (gasOverrides ≫= gasLimit) as [gl|]; [|reflexivity].
  unfold bind, lift, ret.
  destruct (applyPercentIncrease _ _); reflexivity.
Qed.

(** The run when every check passes and the creator address does not
    resolve: the lookup error, after the fee-token block. *)
Lemma build_creator_address_unresolved chainId e :
  validationPasses env publicClient params chainId ->
  creatorAddress = Throw e ->
  run build = (Throw e, feeTokenCalls params).
Proof.
  intros Hvalid Hto.
  rewrite (build_after_fee_token chainId Hvalid).
  now rewrite (run_bind_lift_Throw _ _ _ _ Hto).
Qed.

(** The run when every check passes, the creator address resolves and the
    encoder throws: the encoder's error, and no request preparation. *)
Lemma build_encoding_failure chainId to e :
  validationPasses env publicClient params chainId ->
  creatorAddress = OK to ->
  callData chainId = Throw e ->
  run build = (Throw e, feeTokenCalls params).
Proof.
  intros Hvalid Hto Hdata.
  rewrite (build_after_fee_token chainId Hvalid).
  rewrite (run_bind_lift_OK _ _ _ _ Hto).
  now rewrite (run_bind_lift_Throw _ _ _ _ Hdata).
Qed.

(** A zero-address batch poster on a supported parent chain. *)
Lemma zero_batchPoster_run chainId :
  validateParentChain env publicClient = OK chainId ->
  batchPoster params = zeroAddress ->
  run build = (Throw InvalidBatchPoster, []).
Proof.
  intros Hchain Hposter.
  unfold run, createRollupPrepareTransactionRequest.
  rewrite (run_bind_lift_OK _ _ _ _ Hchain).
  unfold bind at 1, throwIf at 1.
  rewrite (bool_decide_eq_true_2 _ Hposter). reflexivity.
Qed.

(** An empty or zero-containing validator set behind a valid batch poster. *)
Lemma bad_validators_run chainId :
  validateParentChain env publicClient = OK chainId ->
  batchPoster params <> zeroAddress ->
  validators params = [] \/ zeroAddress ∈ validators params ->
  run build = (Throw InvalidValidatorSet, []).
Proof.
  intros Hchain Hposter Hvalidators.
  unfold run, createRollupPrepareTransactionRequest.
  rewrite (run_bind_lift_OK _ _ _ _ Hchain).
  unfold bind at 1, throwIf at 1.
  rewrite (bool_decide_eq_false_2 _ Hposter). cbn [ret].
  unfold bind at 1, throwIf at 1.
  rewrite (validators_check_fails Hvalidators). reflexivity.
Qed.

(** C8, as the code has it.  On a supported parent chain, a zero-address
    batch poster makes the call fail with [InvalidBatchPoster], before any
    collaborator is called. *)
Theorem build_rejects_zero_batchPoster chainId :
  validateParentChain env publicClient = OK chainId ->
  batchPoster params = zeroAddress ->
  run build = (Throw InvalidBatchPoster, []).
Proof.
  exact (zero_batchPoster_run chainId).
Qed.

(** C9, as the code has it.  On a supported parent chain and with a batch
    poster that is not the zero address, a validator set that is empty or
    contains the zero address makes the call fail with
    [InvalidValidatorSet], before any collaborator is called. *)
Theorem build_rejects_bad_validators chainId :
  validateParentChain env publicClient = OK chainId ->
  batchPoster params <> zeroAddress ->
  validators params = [] \/ zeroAddress ∈ validators params ->
  run build = (Throw InvalidValidatorSet, []).
Proof.
  exact (bad_validators_run chainId).
Qed.

(** C10.  When the chain-config string does not parse, the outcome of the
    call is settled in this order.  The three checks come before the parse:
    an unsupported parent chain fails with the validation error, a
    zero-address batch poster with [InvalidBatchPoster], an empty or
    zero-containing validator set with [InvalidValidatorSet], none of them
    with the parse error.  The parse comes before any fee-token
    consideration: a call that passes the three checks fails with the parse
    error whatever the native token is (the zero address included), and
    reads no decimals.  So every such call fails, and calls no collaborator. *)
Theorem build_parses_chainConfig_first e :
  JSON_parse env (chainConfig (config params)) = Throw e ->
  (forall e0,
      validateParentChain env publicClient = Throw e0 ->
      run build = (Throw e0, []))
  /\ (forall chainId,
        validateParentChain env publicClient = OK chainId ->
        batchPoster params = zeroAddress ->
        run build = (Throw InvalidBatchPoster, []))
  /\ (forall chainId,
        validateParentChain env publicClient = OK chainId ->
        batchPoster params <> zeroAddress ->
        validators params = [] \/ zeroAddress ∈ validators params ->
        run build = (Throw InvalidValidatorSet, []))
  /\ (forall chainId,
        addressChecksPass env publicClient params chainId ->
        run build = (Throw e, []))
  /\ exists e', run build = (Throw e', []).
Proof.
  intros Hparse.
  assert (Hchainfail : forall e0,
             validateParentChain env publicClient = Throw e0 ->
             run build = (Throw e0, [])).
  { intros e0 Hchain. unfold run, createRollupPrepareTransactionRequest.
    now rewrite (run_bind_lift_Throw _ _ _ _ Hchain). }
  assert (Hpass : forall chainId,
             addressChecksPass env publicClient params chainId ->
             run build = (Throw e, [])).
  { intros chainId Haddr. unfold run.
    rewrite (build_after_address_checks chainId [] Haddr).
    now rewrite (run_bind_lift_Throw _ _ _ _ Hparse). }
  split; [exact Hchainfail|].
  split; [exact zero_batchPoster_run|].
  split; [exact bad_validators_run|].
  split; [exact Hpass|].
  destruct (validateParentChain env publicClient) as [chainId|e0] eqn:Hchain.
  2:{ exists e0. now apply Hchainfail. }
  destruct (decide (batchPoster params = zeroAddress)) as [Hposter|Hposter].
  { eexists. exact (zero_batchPoster_run chainId Hchain Hposter). }
  destruct (decide (validators params = [])) as [Hnil|Hne].
  { eexists. exact (bad_validators_run chainId Hchain Hposter (or_introl Hnil)). }
  destruct (decide (zeroAddress ∈ validators params)) as [Hin|Hout].
  { eexists. exact (bad_validators_run chainId Hchain Hposter (or_intror Hin)). }
  exists e. apply (Hpass chainId). repeat split; assumption.
Qed.

(** C3.  For a call that passes the address checks, whose chain
    configuration parses and whose native token is not the zero address: a
    configuration that is not AnyTrust makes the call fail with
    [FeeTokenNotSupported] (no decimals are read); an AnyTrust configuration
    and a token whose decimals read answers anything but 18 make it fail with
    [UnsupportedFeeTokenDecimals]; with an answer of 18 the validation
    succeeds, that is, the later steps alone decide the outcome: a creator
    address that does not resolve or call data that does not encode fail the
    call with their own error, and otherwise the call goes on to prepare the
    request and returns the prepared request when the client answers and no
    gas override is asked for. *)
Theorem build_fee_token_rules chainId parsed :
  addressChecksPass env publicClient params chainId ->
  JSON_parse env (chainConfig (config params)) = OK parsed ->
  nativeToken params <> zeroAddress ->
  (isAnyTrustChainConfig parsed = false ->
   run build = (Throw FeeTokenNotSupported, []))
  /\ (forall decimals,
        isAnyTrustChainConfig parsed = true ->
        pc_decimals publicClient (nativeToken params) = OK decimals ->
        decimals <> 18 ->
        run build
        = (Throw UnsupportedFeeTokenDecimals, [CallDecimals (nativeToken params)]))
  /\ (isAnyTrustChainConfig parsed = true ->
      pc_decimals publicClient (nativeToken params) = OK 18 ->
      (forall e,
          creatorAddress = Throw e ->
          run build = (Throw e, [CallDecimals (nativeToken params)]))
      /\ (forall to e,
            creatorAddress = OK to ->
            callData chainId = Throw e ->
            run build = (Throw e, [CallDecimals (nativeToken params)]))
      /\ (forall to data,
            creatorAddress = OK to ->
            callData chainId = OK data ->
            snd (run build)
            = [CallDecimals (nativeToken params);
               CallPrepareTransactionRequest (parametersFor chainId to data)]
            /\ (forall request,
                  pc_prepareTransactionRequest publicClient
                    (parametersFor chainId to data) = OK request ->
                  gasOverrides ≫= gasLimit = None ->
                  fst (run build) = OK {| request := request; chainId := chainId |}))).
Proof.
  intros Haddr Hparse Htoken.
  assert (Hcustom : isCustomFeeTokenAddress (nativeToken params) = true).
  { unfold isCustomFeeTokenAddress. now rewrite (bool_decide_eq_false_2 _ Htoken). }
  assert (Hcalls : feeTokenCalls params = [CallDecimals (nativeToken params)]).
  { unfold feeTokenCalls. now rewrite Hcustom. }
  split; [|split].
  - intros Hany. unfold run.
    rewrite (build_after_address_checks chainId [] Haddr).
    rewrite (run_bind_lift_OK _ _ _ _ Hparse), Hcustom.
    unfold bind at 1. unfold bind at 1, throwIf at 1. now rewrite Hany.
  - intros decimals Hany Hdecimals Hne. unfold run.
    rewrite (build_after_address_checks chainId [] Haddr).
    rewrite (run_bind_lift_OK _ _ _ _ Hparse), Hcustom.
    unfold bind at 1. unfold bind at 1, throwIf at 1. rewrite Hany. cbn [negb ret].
    unfold bind at 1, fetchDecimals, call. rewrite Hdecimals.
    unfold throwIf. destruct (Z.eqb_spec decimals 18); [contradiction|]. reflexivity.
  - intros Hany Hdecimals.
    assert (Hvalid : validationPasses env publicClient params chainId).
    { split; [assumption|]. exists parsed. split; [assumption|]. intros _. now split. }
    split; [|split].
    + intros e Hto. rewrite <- Hcalls.
      exact (build_creator_address_unresolved chainId e Hvalid Hto).
    + intros to e Hto Hdata. rewrite <- Hcalls.
      exact (build_encoding_failure chainId to e Hvalid Hto Hdata).
    + intros to data Hto Hdata.
      rewrite (build_after_validation chainId to data Hvalid Hto Hdata), Hcalls.
      split; [reflexivity|].
      intros request0 Hrequest Hnone. now rewrite Hrequest, Hnone.
Qed.

(** C1.  When every check passes, the creator address resolves, the call data
    encodes, a gas-limit override is asked for without a base, and the
    prepared request comes back without a gas estimate, the call fails with
    [MissingGasBase]; the preparation had been asked with [gas] undefined,
    that is, with estimation requested. *)
Theorem build_missing_gas_base chainId to data gl prepared :
  validationPasses env publicClient params chainId ->
  creatorAddress = OK to ->
  callData chainId = OK data ->
  gasOverrides ≫= gasLimit = Some gl ->
  base gl = None ->
  pc_prepareTransactionRequest publicClient (parametersFor chainId to data) = OK prepared ->
  tx_gas prepared = None ->
  ptr_gas (parametersFor chainId to data) = None
  /\ fst (run build) = Throw MissingGasBase.
Proof.
  intros Hvalid Hto Hdata Hgl Hbase Hrequest Hgas. split.
  - cbn [requestParameters ptr_gas]. rewrite Hgl. cbn. now rewrite Hbase.
  - rewrite (build_after_validation chainId to data Hvalid Hto Hdata).
    rewrite Hrequest, Hgl, Hbase, Hgas. reflexivity.
Qed.

(** C2.  When every check passes, the creator address resolves, the call data
    encodes, a gas-limit override [gl] is asked for and the client answers
    the preparation with [prepared]: the preparation is the last call made;
    with an override base [O], it is asked with [gas = 0] and the returned
    request has gas [O + floor(O * percentIncrease / 100)], whatever gas
    [prepared] carries; without one, it is asked with [gas] undefined and,
    for an estimate [B] in [prepared], the returned request has gas
    [B + floor(B * percentIncrease / 100)]. *)
Theorem build_gas_override_law chainId to data gl prepared :
  validationPasses env publicClient params chainId ->
  creatorAddress = OK to ->
  callData chainId = OK data ->
  gasOverrides ≫= gasLimit = Some gl ->
  pc_prepareTransactionRequest publicClient (parametersFor chainId to data) = OK prepared ->
  last (snd (run build))
  = Some (CallPrepareTransactionRequest (parametersFor chainId to data))
  /\ (forall O,
        base gl = Some O ->
        ptr_gas (parametersFor chainId to data) = Some 0
        /\ exists result,
            fst (run build) = OK result
            /\ tx_gas (request result)
               = Some (O + O * percentIncrease gl / 100))
  /\ (forall B,
        base gl = None ->
        tx_gas prepared = Some B ->
        ptr_gas (parametersFor chainId to data) = None
        /\ exists result,
            fst (run build) = OK result
            /\ tx_gas (request result)
               = Some (B + B * percentIncrease gl / 100)).
Proof.
  intros Hvalid Hto Hdata Hgl Hrequest.
  rewrite (build_after_validation chainId to data Hvalid Hto Hdata).
  rewrite Hrequest, Hgl. cbn [fst snd].
  split; [apply last_snoc|].
  split.
  - intros O Hbase. split.
    + cbn [requestParameters ptr_gas]. rewrite Hgl. cbn. now rewrite Hbase.
    + rewrite Hbase. cbn. eexists. split; reflexivity.
  - intros B Hbase Hgas. split.
    + cbn [requestParameters ptr_gas]. rewrite Hgl. cbn. now rewrite Hbase.
    + rewrite Hbase, Hgas. cbn. eexists. split; reflexivity.
Qed.

End BuilderProperties.

(** ** Worked examples *)

(** C4 on mainnet: one initialization event carrying [demoHash]. *)
Lemma fetchTransactionHash_by_event_count_witness :
  fst (run (createRollupFetchTransactionHash demoEnv demoRollup
              (demoClient (Some 1) [{| log_transactionHash := Some demoHash |}] None 18)))
  = OK demoHash.
Proof.
  refine (proj1 (fetchTransactionHash_by_event_count demoEnv demoRollup
                   (demoClient (Some 1) [{| log_transactionHash := Some demoHash |}] None 18)
                   1 [{| log_transactionHash := Some demoHash |}] _ _)
                {| log_transactionHash := Some demoHash |} demoHash _ _ _);
    first [reflexivity | compute_done].
Defined.

Example fetchTransactionHash_no_event :
  run (createRollupFetchTransactionHash demoEnv demoRollup (demoClient (Some 1) [] None 18))
  = (Throw (UnexpectedEventCount demoRollup 0),
     [CallGetLogs {| gl_address := demoRollup; gl_event := RollupInitializedEventAbi;
                     gl_fromBlock := BlockNumber 18736164; gl_toBlock := Latest |}]).
Proof. vm_compute. reflexivity. Qed.

Example fetchTransactionHash_two_events :
  fst (run (createRollupFetchTransactionHash demoEnv demoRollup
              (demoClient (Some 1)
                 [{| log_transactionHash := Some demoHash |};
                  {| log_transactionHash := Some demoHash |}] None 18)))
  = Throw (UnexpectedEventCount demoRollup 2).
Proof. vm_compute. reflexivity. Qed.

Example fetchTransactionHash_pending_event :
  fst (run (createRollupFetchTransactionHash demoEnv demoRollup
              (demoClient (Some 1) [{| log_transactionHash := None |}] None 18)))
  = Throw (MissingTransactionHash demoRollup).
Proof. vm_compute. reflexivity. Qed.

(** C7 on mainnet: the scan starts at the tabulated block. *)
Lemma fetchTransactionHash_scan_bounds_witness :
  exists q,
    snd (run (createRollupFetchTransactionHash demoEnv demoRollup
                (demoClient (Some 1) [] None 18))) = [CallGetLogs q]
    /\ gl_fromBlock q = BlockNumber 18736164
    /\ gl_toBlock q = Latest.
Proof.
  destruct (fetchTransactionHash_scan_bounds demoEnv demoRollup
              (demoClient (Some 1) [] None 18) 1 eq_refl)
    as (q & Hlog & _ & _ & Hto & Htabulated & _).
  exists q. split; [exact Hlog|]. split; [|exact Hto].
  apply Htabulated. vm_compute. reflexivity.
Defined.

(** C5: a redeemed ticket. *)
Lemma waitForRetryables_single_ticket_witness :
  fst (run (waitForRetryables demoToEthers demoToViem demoProvider
              (fun _ _ => OK [redeemedMessage]) "deploy-tx" "orbit"))
  = OK ["viem:redeem-aa01"].
Proof.
  refine (proj1 (waitForRetryables_single_ticket demoToEthers demoToViem demoProvider
                   (fun _ _ => OK [redeemedMessage]) "deploy-tx" "orbit"
                   redeemedMessage (WaitRedeemed {| l2TxReceipt := "redeem-aa01" |}) _ _)
                {| l2TxReceipt := "redeem-aa01" |} _);
    reflexivity.
Defined.

Example waitForRetryables_expired_ticket :
  run (waitForRetryables demoToEthers demoToViem demoProvider
         (fun _ _ => OK [expiredMessage]) "deploy-tx" "orbit")
  = (Throw (TicketNotRedeemed "0xbb02"), [CallGetL1ToL2Messages; CallWaitForStatus "0xbb02"]).
Proof. vm_compute. reflexivity. Qed.

(** C6: two tickets, both waits resolved. *)
Lemma waitForRetryables_ticket_count_witness :
  fst (run (waitForRetryables demoToEthers demoToViem demoProvider
              (fun _ _ => OK [redeemedMessage; expiredMessage]) "deploy-tx" "orbit"))
  = Throw (UnexpectedTicketCount 2).
Proof.
  refine (proj1 (proj2 (waitForRetryables_ticket_count demoToEthers demoToViem demoProvider
                          (fun _ _ => OK [redeemedMessage; expiredMessage])
                          "deploy-tx" "orbit" [redeemedMessage; expiredMessage] _)) _ _).
  - reflexivity.
  - repeat constructor; eexists; reflexivity.
  - cbn. lia.
Defined.

Example waitForRetryables_no_ticket :
  run (waitForRetryables demoToEthers demoToViem demoProvider
         (fun _ _ => OK []) "deploy-tx" "orbit")
  = (Throw (UnexpectedTicketCount 0), [CallGetL1ToL2Messages]).
Proof. vm_compute. reflexivity. Qed.

(** C6 as stated fails: a receipt that derives two messages, the wait of the
    first of which rejects.  Both waits are started, the join rejects, and
    the call fails with that rejection, not with [UnexpectedTicketCount]. *)
Lemma waitForRetryables_two_tickets_rejected_wait :
  length [rejectedMessage; redeemedMessage] = 2%nat
  /\ run (waitForRetryables demoToEthers demoToViem demoProvider
            (fun _ _ => OK [rejectedMessage; redeemedMessage]) "deploy-tx" "orbit")
     = (Throw (External "timeout"),
        [CallGetL1ToL2Messages; CallWaitForStatus "0xcc03"; CallWaitForStatus "0xaa01"])
  /\ fst (run (waitForRetryables demoToEthers demoToViem demoProvider
                 (fun _ _ => OK [rejectedMessage; redeemedMessage]) "deploy-tx" "orbit"))
     <> Throw (UnexpectedTicketCount 2).
Proof.
  split; [reflexivity|]. split; [vm_compute; reflexivity|].
  vm_compute. discriminate.
Qed.

Lemma rollupParams_valid gas :
  validationPasses demoEnv (demoClient (Some 1) [] gas 18) rollupParams 1.
Proof.
  split; [repeat split; compute_done|].
  exists {| DataAvailabilityCommittee := false |}.
  split; [reflexivity|]. intros Htoken. now contradiction Htoken.
Defined.

(** C8, as the code has it, on mainnet. *)
Lemma build_rejects_zero_batchPoster_witness :
  run (createRollupPrepareTransactionRequest demoEnv
         (demoParams rollupJson zeroAddress [demoValidator] zeroAddress) demoAccount
         (demoClient (Some 1) [] (Some 21000) 18) None None)
  = (Throw InvalidBatchPoster, []).
Proof.
  apply (build_rejects_zero_batchPoster demoEnv
           (demoParams rollupJson zeroAddress [demoValidator] zeroAddress) demoAccount
           (demoClient (Some 1) [] (Some 21000) 18) None None 1); reflexivity.
Defined.

(** C8 as stated fails: on Goerli (chain id 5), which is not a supported
    parent chain, the same zero-address batch poster is never looked at and
    the call fails with [UnsupportedParentChain]. *)
Lemma build_zero_batchPoster_on_unsupported_chain :
  batchPoster (demoParams rollupJson zeroAddress [demoValidator] zeroAddress) = zeroAddress
  /\ fst (run (createRollupPrepareTransactionRequest demoEnv
                 (demoParams rollupJson zeroAddress [demoValidator] zeroAddress) demoAccount
                 (demoClient (Some 5) [] (Some 21000) 18) None None))
     = Throw UnsupportedParentChain
  /\ fst (run (createRollupPrepareTransactionRequest demoEnv
                 (demoParams rollupJson zeroAddress [demoValidator] zeroAddress) demoAccount
                 (demoClient (Some 5) [] (Some 21000) 18) None None))
     <> Throw InvalidBatchPoster.
Proof.
  split; [reflexivity|]. split; [vm_compute; reflexivity|].
  vm_compute. discriminate.
Qed.

(** C9, as the code has it, on mainnet: an empty validator set. *)
Lemma build_rejects_bad_validators_witness :
  run (createRollupPrepareTransactionRequest demoEnv
         (demoParams rollupJson demoPoster [] zeroAddress) demoAccount
         (demoClient (Some 1) [] (Some 21000) 18) None None)
  = (Throw InvalidValidatorSet, []).
Proof.
  apply (build_rejects_bad_validators demoEnv
           (demoParams rollupJson demoPoster [] zeroAddress) demoAccount
           (demoClient (Some 1) [] (Some 21000) 18) None None 1);
    [reflexivity | compute_done | left; reflexivity].
Defined.

Example build_rejects_zero_validator :
  run (createRollupPrepareTransactionRequest demoEnv
         (demoParams rollupJson demoPoster [demoValidator; zeroAddress] zeroAddress)
         demoAccount (demoClient (Some 1) [] (Some 21000) 18) None None)
  = (Throw InvalidValidatorSet, []).
Proof. vm_compute. reflexivity. Qed.

(** C9 as stated fails: with an empty validator set and a zero-address
    batch poster, on mainnet, the batch-poster check comes first and the call
    fails with [InvalidBatchPoster]. *)
Lemma build_empty_validators_behind_zero_batchPoster :
  validators (demoParams rollupJson zeroAddress [] zeroAddress) = []
  /\ fst (run (createRollupPrepareTransactionRequest demoEnv
                 (demoParams rollupJson zeroAddress [] zeroAddress) demoAccount
                 (demoClient (Some 1) [] (Some 21000) 18) None None))
     = Throw InvalidBatchPoster
  /\ fst (run (createRollupPrepareTransactionRequest demoEnv
                 (demoParams rollupJson zeroAddress [] zeroAddress) demoAccount
                 (demoClient (Some 1) [] (Some 21000) 18) None None))
     <> Throw InvalidValidatorSet.
Proof.
  split; [reflexivity|]. split; [vm_compute; reflexivity|].
  vm_compute. discriminate.
Qed.

(** C10: an unparseable chain configuration with the native gas token. *)
Lemma build_parses_chainConfig_first_witness :
  nativeToken (demoParams "{arbitrum" demoPoster [demoValidator] zeroAddress) = zeroAddress
  /\ run (createRollupPrepareTransactionRequest demoEnv
            (demoParams "{arbitrum" demoPoster [demoValidator] zeroAddress) demoAccount
            (demoClient (Some 1) [] (Some 21000) 18) None None)
     = (Throw (External "SyntaxError"), []).
Proof.
  split; [reflexivity|].
  apply (proj1 (proj2 (proj2 (proj2
           (build_parses_chainConfig_first demoEnv
              (demoParams "{arbitrum" demoPoster [demoValidator] zeroAddress) demoAccount
              (demoClient (Some 1) [] (Some 21000) 18) None None
              (External "SyntaxError") eq_refl)))) 1).
  repeat split; compute_done.
Defined.

(** The batch-poster check still comes before the parse. *)
Example build_unparseable_behind_zero_batchPoster :
  run (createRollupPrepareTransactionRequest demoEnv
         (demoParams "{arbitrum" zeroAddress [demoValidator] zeroAddress) demoAccount
         (demoClient (Some 1) [] (Some 21000) 18) None None)
  = (Throw InvalidBatchPoster, []).
Proof. vm_compute. reflexivity. Qed.

(** C3: an AnyTrust chain with an 18-decimals fee token is prepared. *)
Lemma build_fee_token_rules_witness :
  run (createRollupPrepareTransactionRequest demoEnv anyTrustParams demoAccount
         (demoClient (Some 1) [] (Some 21000) 18) None None)
  = (OK {| request := demoPrepared (Some 21000); chainId := 1 |},
     [CallDecimals demoToken;
      CallPrepareTransactionRequest
        (requestParameters demoEnv (demoClient (Some 1) [] (Some 21000) 18) demoAccount None
           {| fi_params := anyTrustParams; fi_maxDataSize := 104857 |} demoCreator
           "0xcb73d6e2")]).
Proof.
  destruct (build_fee_token_rules demoEnv anyTrustParams demoAccount
              (demoClient (Some 1) [] (Some 21000) 18) None None
              1 {| DataAvailabilityCommittee := true |})
    as (_ & _ & Hok).
  - repeat split; compute_done.
  - reflexivity.
  - compute_done.
  - destruct (Hok eq_refl eq_refl) as (_ & _ & Hprepares).
    destruct (Hprepares demoCreator "0xcb73d6e2" eq_refl eq_refl) as [Hlog Hresult].
    specialize (Hresult (demoPrepared (Some 21000)) eq_refl eq_refl).
    destruct (run _) as [outcome log]. cbn [fst snd] in Hlog, Hresult.
    rewrite Hlog, Hresult. reflexivity.
Defined.

Example build_fee_token_on_rollup :
  run (createRollupPrepareTransactionRequest demoEnv
         (demoParams rollupJson demoPoster [demoValidator] demoToken) demoAccount
         (demoClient (Some 1) [] (Some 21000) 18) None None)
  = (Throw FeeTokenNotSupported, []).
Proof. vm_compute. reflexivity. Qed.

Example build_fee_token_17_decimals :
  run (createRollupPrepareTransactionRequest demoEnv anyTrustParams demoAccount
         (demoClient (Some 1) [] (Some 21000) 17) None None)
  = (Throw UnsupportedFeeTokenDecimals, [CallDecimals demoToken]).
Proof. vm_compute. reflexivity. Qed.

Example build_fee_token_19_decimals :
  run (createRollupPrepareTransactionRequest demoEnv anyTrustParams demoAccount
         (demoClient (Some 1) [] (Some 21000) 19) None None)
  = (Throw UnsupportedFeeTokenDecimals, [CallDecimals demoToken]).
Proof. vm_compute. reflexivity. Qed.

(** C1: a percent increase without a base, and a client that leaves the gas
    of the prepared request undefined. *)
Lemma build_missing_gas_base_witness :
  fst (run (createRollupPrepareTransactionRequest demoEnv rollupParams demoAccount
              (demoClient (Some 1) [] None 18) (demoOverrides None 20) None))
  = Throw MissingGasBase.
Proof.
  refine (proj2 (build_missing_gas_base demoEnv rollupParams demoAccount
                   (demoClient (Some 1) [] None 18) (demoOverrides None 20) None
                   1 demoCreator "0xcb73d6e2" {| base := None; percentIncrease := 20 |}
                   (demoPrepared None) (rollupParams_valid None) _ _ _ _ _ _));
    reflexivity.
Defined.

(** C2: [{ base: 1000000n, percentIncrease: 20 }] yields 1200000, whatever
    the client would have estimated. *)
Lemma build_gas_override_law_witness :
  exists result,
    fst (run (createRollupPrepareTransactionRequest demoEnv rollupParams demoAccount
                (demoClient (Some 1) [] (Some 21000) 18)
                (demoOverrides (Some 1000000) 20) None)) = OK result
    /\ tx_gas (request result) = Some 1200000.
Proof.
  refine (proj2 (proj1 (proj2
            (build_gas_override_law demoEnv rollupParams demoAccount
               (demoClient (Some 1) [] (Some 21000) 18)
               (demoOverrides (Some 1000000) 20) None
               1 demoCreator "0xcb73d6e2"
               {| base := Some 1000000; percentIncrease := 20 |}
               (demoPrepared (Some 0)) (rollupParams_valid (Some 21000)) _ _ _ _))
            1000000 _));
    reflexivity.
Defined.

Example build_gas_override_on_estimate :
  fst (run (createRollupPrepareTransactionRequest demoEnv rollupParams demoAccount
              (demoClient (Some 1) [] (Some 21001) 18) (demoOverrides None 15) None))
  = OK {| request := demoPrepared (Some 24151); chainId := 1 |}.
Proof. vm_compute. reflexivity. Qed.

Example build_without_gas_override :
  fst (run (createRollupPrepareTransactionRequest demoEnv rollupParams demoAccount
              (demoClient (Some 1) [] (Some 21001) 18) None None))
  = OK {| request := demoPrepared (Some 21001); chainId := 1 |}.
Proof. vm_compute. reflexivity. Qed.

(** A batch poster that is not an address: the encoder throws while the
    argument of the preparation is built, and the client is never asked. *)
Example build_malformed_batchPoster :
  run (createRollupPrepareTransactionRequest demoEnv
         (demoParams rollupJson "0x1234" [demoValidator] zeroAddress) demoAccount
         (demoClient (Some 1) [] (Some 21001) 18) (demoOverrides None 20) None)
  = (Throw (External "InvalidAddressError"), []).
Proof. vm_compute. reflexivity. Qed.

(** ** Further properties of the builder *)

Section BuilderCalls.
Context (env : Environment).
Context (params : CreateRollupParams) (account : Address) (publicClient : PublicClient).
Context (gasOverrides : option TransactionRequestGasOverrides).
Context (rollupCreatorAddressOverride : option Address).

Local Abbreviation build :=
  (createRollupPrepareTransactionRequest env params account publicClient
     gasOverrides rollupCreatorAddressOverride).

Local Abbreviation creatorAddress :=
  (match rollupCreatorAddressOverride with
   | Some a => OK a
   | None => getRollupCreatorAddress env publicClient
   end).

Local Abbreviation callData cid :=
  (createRollupEncodeFunctionData env
     [{| fi_params := params; fi_maxDataSize := createRollupGetMaxDataSize env cid |}]).

Local Abbreviation parametersFor cid to data :=
  (requestParameters env publicClient account gasOverrides
     {| fi_params := params; fi_maxDataSize := createRollupGetMaxDataSize env cid |}
     to data).

Local Abbreviation afterValidation cid to data :=
  (build_after_validation env params account publicClient gasOverrides
     rollupCreatorAddressOverride cid to data).

(** Either every check passes, the creator address resolves and the call
    data encodes, or the call fails having made no call but, at most, the
    decimals read. *)
Lemma build_validated_or_failed :
  (exists cid to data,
      validationPasses env publicClient params cid
      /\ creatorAddress = OK to
      /\ callData cid = OK data)
  \/ (exists e log,
        run build = (Throw e, log) /\ log `prefix_of` feeTokenCalls params).
Proof.
  destruct (validateParentChain env publicClient) as [cid|e] eqn:Hchain.
  2:{ right. exists e, []. split; [|apply prefix_nil].
      unfold run, createRollupPrepareTransactionRequest.
      now rewrite (run_bind_lift_Throw _ _ _ _ Hchain). }
  destruct (decide (batchPoster params = zeroAddress)) as [Hposter|Hposter].
  { right. exists InvalidBatchPoster, []. split; [|apply prefix_nil].
    exact (zero_batchPoster_run env params account publicClient gasOverrides
             rollupCreatorAddressOverride cid Hchain Hposter). }
  assert (Hbad : validators params = [] \/ zeroAddress ∈ validators params ->
                 exists e log, run build = (Throw e, log)
                               /\ log `prefix_of` feeTokenCalls params).
  { intros Hv. exists InvalidValidatorSet, []. split; [|apply prefix_nil].
    exact (bad_validators_run env params account publicClient gasOverrides
             rollupCreatorAddressOverride cid Hchain Hposter Hv). }
  destruct (decide (validators params = [])) as [Hnil|Hne]; [right; auto|].
  destruct (decide (zeroAddress ∈ validators params)) as [Hin|Hout]; [right; auto|].
  clear Hbad.
  assert (Haddr : addressChecksPass env publicClient params cid)
    by (repeat split; assumption).
  destruct (JSON_parse env (chainConfig (config params))) as [parsed|e] eqn:Hparse.
  2:{ right. exists e, []. split; [|apply prefix_nil]. unfold run.
      rewrite (build_after_address_checks env params account publicClient gasOverrides
                 rollupCreatorAddressOverride cid [] Haddr).
      now rewrite (run_bind_lift_Throw _ _ _ _ Hparse). }
  assert (Hrest : (nativeToken params <> zeroAddress ->
                   isAnyTrustChainConfig parsed = true
                   /\ pc_decimals publicClient (nativeToken params) = OK 18) ->
                  (exists cid to data,
                      validationPasses env publicClient params cid
                      /\ creatorAddress = OK to
                      /\ callData cid = OK data)
                  \/ (exists e log,
                        run build = (Throw e, log)
                        /\ log `prefix_of` feeTokenCalls params)).
  { intros Hfee.
    assert (Hvalid : validationPasses env publicClient params cid).
    { split; [assumption|]. now exists parsed. }
    destruct creatorAddress as [to|e] eqn:Hto.
    - destruct (callData cid) as [data|e] eqn:Hdata.
      + left. now exists cid, to, data.
      + right. exists e, (feeTokenCalls params). split; [|reflexivity].
        now apply (build_encoding_failure env params account publicClient gasOverrides
                     rollupCreatorAddressOverride cid to).
    - right. exists e, (feeTokenCalls params). split; [|reflexivity].
      now apply (build_creator_address_unresolved env params account publicClient
                   gasOverrides rollupCreatorAddressOverride cid). }
  destruct (decide (nativeToken params = zeroAddress)) as [Htoken|Htoken].
  { apply Hrest. intros Hcustom. contradiction. }
  assert (Hcalls : feeTokenCalls params = [CallDecimals (nativeToken params)]).
  { unfold feeTokenCalls, isCustomFeeTokenAddress.
    now rewrite (bool_decide_eq_false_2 _ Htoken). }
  assert (Hblock : forall rest : Async CreateRollupTransactionRequest,
             bind (lift (JSON_parse env (chainConfig (config params))))
               (fun chainConfig =>
                  check (if isCustomFeeTokenAddress (nativeToken params) then
                           check throwIf (negb (isAnyTrustChainConfig chainConfig))
                                   FeeTokenNotSupported ;;
                           decimals <- fetchDecimals (nativeToken params) publicClient ;;
                           throwIf (negb (decimals =? 18)) UnsupportedFeeTokenDecimals
                         else ret tt) ;;
                  rest) []
             = bind (check throwIf (negb (isAnyTrustChainConfig parsed))
                             FeeTokenNotSupported ;;
                     decimals <- fetchDecimals (nativeToken params) publicClient ;;
                     throwIf (negb (decimals =? 18)) UnsupportedFeeTokenDecimals)
                 (fun _ => rest) []).
  { intros rest. rewrite (run_bind_lift_OK _ _ _ _ Hparse).
    unfold isCustomFeeTokenAddress.
    now rewrite (bool_decide_eq_false_2 _ Htoken). }
  pose proof (build_after_address_checks env params account publicClient gasOverrides
                rollupCreatorAddressOverride cid [] Haddr) as Hrun.
  rewrite Hblock in Hrun. fold (run build) in Hrun.
  destruct (isAnyTrustChainConfig parsed) eqn:Hany.
  2:{ right. exists FeeTokenNotSupported, []. split; [|apply prefix_nil].
      rewrite Hrun. reflexivity. }
  destruct (pc_decimals publicClient (nativeToken params)) as [decimals|e] eqn:Hdecimals.
  2:{ right. exists e, [CallDecimals (nativeToken params)]. split; [|now rewrite Hcalls].
      rewrite Hrun. unfold bind, throwIf, fetchDecimals, call, ret. cbn [negb].
      now rewrite Hdecimals. }
  destruct (Z.eqb_spec decimals 18) as [->|Hdiff].
  { apply Hrest. intros _. now split. }
  right. exists UnsupportedFeeTokenDecimals, [CallDecimals (nativeToken params)].
  split; [|now rewrite Hcalls].
  rewrite Hrun. unfold bind, throwIf, fetchDecimals, call, ret. cbn [negb].
  rewrite Hdecimals. destruct (Z.eqb_spec decimals 18); [contradiction|]. reflexivity.
Qed.

(** What a returned request comes from. *)
Lemma build_returned result :
  fst (run build) = OK result ->
  exists to data prepared,
    validationPasses env publicClient params (chainId result)
    /\ creatorAddress = OK to
    /\ callData (chainId result) = OK data
    /\ pc_prepareTransactionRequest publicClient (parametersFor (chainId result) to data)
       = OK prepared
    /\ (request result = prepared \/ exists gas, request result = setGas prepared gas)
    /\ (gasOverrides ≫= gasLimit = None -> request result = prepared).
Proof.
  intros Hok.
  destruct build_validated_or_failed
    as [(cid & to & data & Hvalid & Hto & Hdata)|(e & log & Hrun & _)].
  2:{ rewrite Hrun in Hok. discriminate. }
  rewrite (afterValidation cid to data Hvalid Hto Hdata) in Hok. cbn [fst] in Hok.
  destruct (pc_prepareTransactionRequest publicClient (parametersFor cid to data))
    as [prepared|e] eqn:Hprepared; [|discriminate].
  destruct (gasOverrides ≫= gasLimit) as [gl|].
  - destruct (applyPercentIncrease _ _) as [gas|e]; [|discriminate].
    injection Hok as <-. cbn [chainId request].
    exists to, data, prepared.
    split; [exact Hvalid|]. split; [exact Hto|]. split; [exact Hdata|].
    split; [exact Hprepared|]. split.
    + right. now exists gas.
    + discriminate.
  - injection Hok as <-. cbn [chainId request].
    exists to, data, prepared.
    split; [exact Hvalid|]. split; [exact Hto|]. split; [exact Hdata|].
    split; [exact Hprepared|]. split.
    + now left.
    + reflexivity.
Qed.

(** X1.  A call that returns has passed every check: the parent chain
    validated to the returned chain id, the batch poster is not the zero
    address, the validators are non-empty and without the zero address, the
    chain configuration parsed, and a custom fee token sits on an AnyTrust
    configuration and reads 18 decimals. *)
Theorem build_returns_only_valid result :
  fst (run build) = OK result ->
  validationPasses env publicClient params (chainId result).
Proof.
  intros Hok.
  destruct (build_returned result Hok) as (to & data & prepared & Hvalid & _).
  exact Hvalid.
Qed.

(** X2.  A call that returns hands back the request the client prepared for
    the resolved creator address and the encoded call data, changed in its
    gas at most: destination, call data, value and account are the client's,
    and so is the gas when no gas-limit override is asked for. *)
Theorem build_override_touches_gas_only result :
  fst (run build) = OK result ->
  exists to data prepared,
    creatorAddress = OK to
    /\ callData (chainId result) = OK data
    /\ pc_prepareTransactionRequest publicClient (parametersFor (chainId result) to data)
       = OK prepared
    /\ tx_to (request result) = tx_to prepared
    /\ tx_data (request result) = tx_data prepared
    /\ tx_value (request result) = tx_value prepared
    /\ tx_account (request result) = tx_account prepared
    /\ (gasOverrides ≫= gasLimit = None -> tx_gas (request result) = tx_gas prepared).
Proof.
  intros Hok.
  destruct (build_returned result Hok)
    as (to & data & prepared & _ & Hto & Hdata & Hprepared & Hgas & Hnone).
  exists to, data, prepared.
  split; [assumption|]. split; [assumption|]. split; [assumption|].
  assert (Hfields : tx_to (request result) = tx_to prepared
                    /\ tx_data (request result) = tx_data prepared
                    /\ tx_value (request result) = tx_value prepared
                    /\ tx_account (request result) = tx_account prepared).
  { destruct Hgas as [Heq | [gas Heq]]; rewrite Heq; repeat split; reflexivity. }
  destruct Hfields as (H1 & H2 & H3 & H4).
  repeat (split; [assumption|]).
  intros Hno. now rewrite (Hnone Hno).
Qed.

(** X3.  Without a gas-limit override (no [gasOverrides], or one without
    [gasLimit]) a call that passes every check, whose creator address
    resolves and whose call data encodes asks the client to prepare the
    request with [gas] undefined and returns exactly what the client
    prepared, with the chain id. *)
Theorem build_without_gas_limit_override cid to data prepared :
  validationPasses env publicClient params cid ->
  creatorAddress = OK to ->
  callData cid = OK data ->
  gasOverrides ≫= gasLimit = None ->
  pc_prepareTransactionRequest publicClient (parametersFor cid to data) = OK prepared ->
  ptr_gas (parametersFor cid to data) = None
  /\ run build
     = (OK {| request := prepared; chainId := cid |},
        feeTokenCalls params
          ++ [CallPrepareTransactionRequest (parametersFor cid to data)]).
Proof.
  intros Hvalid Hto Hdata Hnone Hprepared. split.
  - cbn [requestParameters ptr_gas]. now rewrite Hnone.
  - rewrite (afterValidation cid to data Hvalid Hto Hdata). now rewrite Hprepared, Hnone.
Qed.

(** X4.  When the client rejects the request preparation, a call that passes
    every check, whose creator address resolves and whose call data encodes
    fails with the client's error, whatever gas override is asked for. *)
Theorem build_preparation_failure_passes_through cid to data e :
  validationPasses env publicClient params cid ->
  creatorAddress = OK to ->
  callData cid = OK data ->
  pc_prepareTransactionRequest publicClient (parametersFor cid to data) = Throw e ->
  run build
  = (Throw e,
     feeTokenCalls params ++ [CallPrepareTransactionRequest (parametersFor cid to data)]).
Proof.
  intros Hvalid Hto Hdata Hprepared.
  rewrite (afterValidation cid to data Hvalid Hto Hdata). now rewrite Hprepared.
Qed.

(** X5.  When the decimals read of a custom fee token on an AnyTrust
    configuration is rejected, the call fails with that error and prepares no
    request. *)
Theorem build_decimals_failure_passes_through cid parsed e :
  addressChecksPass env publicClient params cid ->
  JSON_parse env (chainConfig (config params)) = OK parsed ->
  nativeToken params <> zeroAddress ->
  isAnyTrustChainConfig parsed = true ->
  pc_decimals publicClient (nativeToken params) = Throw e ->
  run build = (Throw e, [CallDecimals (nativeToken params)]).
Proof.
  intros Haddr Hparse Htoken Hany Hdecimals. unfold run.
  rewrite (build_after_address_checks env params account publicClient gasOverrides
             rollupCreatorAddressOverride cid [] Haddr).
  rewrite (run_bind_lift_OK _ _ _ _ Hparse).
  unfold isCustomFeeTokenAddress. rewrite (bool_decide_eq_false_2 _ Htoken).
  unfold bind, throwIf, fetchDecimals, call, ret. cbn [negb].
  now rewrite Hany, Hdecimals.
Qed.

(** X6.  Whatever its outcome, a call makes no collaborator call but these,
    in this order: the decimals read, for a custom fee token only, then one
    request preparation. *)
Theorem build_call_discipline :
  exists p,
    snd (run build) `prefix_of` feeTokenCalls params ++ [CallPrepareTransactionRequest p].
Proof.
  destruct build_validated_or_failed
    as [(cid & to & data & Hvalid & Hto & Hdata)|(e & log & Hrun & Hlog)].
  - exists (parametersFor cid to data).
    now rewrite (afterValidation cid to data Hvalid Hto Hdata).
  - exists (parametersFor 0 "" ""). rewrite Hrun. now apply prefix_app_r.
Qed.

(** X7.  Without an address override, a call that passes every check and
    whose default creator address does not resolve fails with the lookup's
    error, and prepares no request. *)
Theorem build_creator_lookup_failure cid e :
  validationPasses env publicClient params cid ->
  rollupCreatorAddressOverride = None ->
  getRollupCreatorAddress env publicClient = Throw e ->
  run build = (Throw e, feeTokenCalls params).
Proof.
  intros Hvalid Hnone Hlookup.
  apply (build_creator_address_unresolved env params account publicClient gasOverrides
           rollupCreatorAddressOverride cid); [assumption|].
  now rewrite Hnone.
Qed.

(** X8.  An explicit creator-address override takes precedence over the
    default registry: the run does not depend on what the registry would
    answer, and a call that passes every check and whose call data encodes
    ends with a request preparation addressed to the override. *)
Theorem build_address_override_wins a lookup cid data :
  validationPasses env publicClient params cid ->
  callData cid = OK data ->
  run (createRollupPrepareTransactionRequest (withGetRollupCreatorAddress env lookup)
         params account publicClient gasOverrides (Some a))
  = run (createRollupPrepareTransactionRequest env
           params account publicClient gasOverrides (Some a))
  /\ exists p,
      last (snd (run (createRollupPrepareTransactionRequest env
                        params account publicClient gasOverrides (Some a))))
      = Some (CallPrepareTransactionRequest p)
      /\ ptr_to p = a
      /\ ptr_data p = data.
Proof.
  intros Hvalid Hdata. split; [reflexivity|].
  eexists. split; [|split].
  - rewrite (build_after_validation env params account publicClient gasOverrides
               (Some a) cid a data Hvalid eq_refl Hdata).
    cbn [snd]. apply last_snoc.
  - reflexivity.
  - reflexivity.
Qed.

End BuilderCalls.

(** ** Further properties of the resolver *)

(** X9.  A returned hash is never empty and is the transaction hash of the
    one event the log query answered with, on a validated parent chain. *)
Theorem fetchTransactionHash_returns_event_hash
    (env : Environment) (rollup : Address) (publicClient : PublicClient) (h : Hash) :
  fst (run (createRollupFetchTransactionHash env rollup publicClient)) = OK h ->
  exists cid event,
    validateParentChain env publicClient = OK cid
    /\ pc_getLogs publicClient
         {| gl_address := rollup; gl_event := RollupInitializedEventAbi;
            gl_fromBlock := fromBlock (chains env) cid; gl_toBlock := Latest |}
       = OK [event]
    /\ log_transactionHash event = Some h
    /\ h <> "".
Proof.
  intros Hok.
  destruct (validateParentChain env publicClient) as [cid|e] eqn:Hchain.
  2:{ unfold createRollupFetchTransactionHash, run in Hok.
      rewrite (run_bind_lift_Throw _ _ _ _ Hchain) in Hok. discriminate. }
  destruct (pc_getLogs publicClient
              {| gl_address := rollup; gl_event := RollupInitializedEventAbi;
                 gl_fromBlock := fromBlock (chains env) cid; gl_toBlock := Latest |})
    as [logs|e] eqn:Hlogs.
  2:{ unfold createRollupFetchTransactionHash, run in Hok.
      rewrite (run_bind_lift_OK _ _ _ _ Hchain) in Hok.
      unfold bind at 1, call in Hok. rewrite Hlogs in Hok. discriminate. }
  rewrite (fetchTransactionHash_answered env rollup publicClient cid logs Hchain Hlogs) in Hok.
  destruct logs as [|event [|event' logs]]; try discriminate.
  destruct (log_transactionHash event) as [h'|] eqn:Hhash; [|discriminate].
  case_bool_decide as Hempty; [discriminate|].
  injection Hok as ->. now exists cid, event.
Qed.

(** X10.  When the parent chain does not validate, the call fails with the
    validation error and queries no logs. *)
Theorem fetchTransactionHash_unvalidated_chain
    (env : Environment) (rollup : Address) (publicClient : PublicClient) (e : Error) :
  validateParentChain env publicClient = Throw e ->
  run (createRollupFetchTransactionHash env rollup publicClient) = (Throw e, []).
Proof.
  intros Hchain. unfold createRollupFetchTransactionHash, run.
  now rewrite (run_bind_lift_Throw _ _ _ _ Hchain).
Qed.

(** X11.  When the client rejects the log query, the call fails with the
    client's error, after that one query. *)
Theorem fetchTransactionHash_query_failure
    (env : Environment) (rollup : Address) (publicClient : PublicClient)
    (cid : Z) (e : Error) :
  validateParentChain env publicClient = OK cid ->
  pc_getLogs publicClient
    {| gl_address := rollup; gl_event := RollupInitializedEventAbi;
       gl_fromBlock := fromBlock (chains env) cid; gl_toBlock := Latest |} = Throw e ->
  run (createRollupFetchTransactionHash env rollup publicClient)
  = (Throw e,
     [CallGetLogs {| gl_address := rollup; gl_event := RollupInitializedEventAbi;
                     gl_fromBlock := fromBlock (chains env) cid; gl_toBlock := Latest |}]).
Proof.
  intros Hchain Hlogs. unfold createRollupFetchTransactionHash, run.
  rewrite (run_bind_lift_OK _ _ _ _ Hchain).
  unfold bind at 1, call. now rewrite Hlogs.
Qed.

(** X12.  The scan starts at genesis exactly for the chain ids the table
    does not name, whatever ids the eight chains have. *)
Theorem fromBlock_earliest_iff (c : Chains) (id : Z) :
  fromBlock c id = Earliest
  <-> id ∉ [mainnet c; arbitrumOne c; arbitrumNova c; sepolia c; holesky c;
            arbitrumSepolia c; nitroTestnodeL1 c; nitroTestnodeL2 c].
Proof.
  split.
  - intros Hearliest Hin.
    destruct (fromBlock_tabulated c id Hin) as [n Hn]. congruence.
  - apply fromBlock_untabulated.
Qed.

(** X13.  When the eight chains have distinct ids, each chain is scanned from
    the block written next to it in the table. *)
Theorem fromBlock_of_each_chain (c : Chains) :
  NoDup [mainnet c; arbitrumOne c; arbitrumNova c; sepolia c; holesky c;
         arbitrumSepolia c; nitroTestnodeL1 c; nitroTestnodeL2 c] ->
  fromBlock c (mainnet c) = BlockNumber 18736164
  /\ fromBlock c (arbitrumOne c) = BlockNumber 150599584
  /\ fromBlock c (arbitrumNova c) = BlockNumber 47798739
  /\ fromBlock c (sepolia c) = BlockNumber 4741823
  /\ fromBlock c (holesky c) = BlockNumber 1083992
  /\ fromBlock c (arbitrumSepolia c) = BlockNumber 654628
  /\ fromBlock c (nitroTestnodeL1 c) = BlockNumber 0
  /\ fromBlock c (nitroTestnodeL2 c) = BlockNumber 0.
Proof.
  intros Hdistinct.
  rewrite !NoDup_cons, !not_elem_of_cons in Hdistinct.
  unfold fromBlock, earliestRollupCreatorDeploymentBlockNumber, objectLiteral.
  cbn [foldl fst snd].
  repeat split;
    repeat (rewrite lookup_insert_ne by (intros Heq; symmetry in Heq; tauto));
    now rewrite lookup_insert_eq.
Qed.

(** ** Further properties of the tracker *)

Section TrackerOutcomes.
Context {TransactionReceipt EthersTransactionReceipt OrbitPublicClient Provider : Type}.
Context (viemToEthers : TransactionReceipt -> EthersTransactionReceipt).
Context (ethersToViem : EthersTransactionReceipt -> TransactionReceipt).
Context (publicClientToProvider : OrbitPublicClient -> Provider).
Context (getL1ToL2Messages :
           EthersTransactionReceipt -> Provider ->
           Result (list (L1ToL2Message EthersTransactionReceipt))).

Local Abbreviation track :=
  (waitForRetryables viemToEthers ethersToViem publicClientToProvider getL1ToL2Messages).

(** Every wait resolves, or some wait rejects. *)
Lemma waits_resolved_or_rejected
    (messages : list (L1ToL2Message EthersTransactionReceipt)) :
  (exists results, Forall2 (fun m r => msg_waitForStatus m = OK r) messages results)
  \/ Exists (fun m => exists e, msg_waitForStatus m = Throw e) messages.
Proof.
  induction messages as [|m ms [[rs IH]|IH]].
  - left. exists []. constructor.
  - destruct (msg_waitForStatus m) as [r|e] eqn:Hm.
    + left. exists (r :: rs). now constructor.
    + right. apply Exists_cons_hd. now exists e.
  - right. now apply Exists_cons_tl.
Qed.

(** A rejected wait makes the call fail. *)
Lemma waitForRetryables_rejected
    (txReceipt : TransactionReceipt) (orbitPublicClient : OrbitPublicClient)
    (messages : list (L1ToL2Message EthersTransactionReceipt)) :
  getL1ToL2Messages (viemToEthers txReceipt) (publicClientToProvider orbitPublicClient)
    = OK messages ->
  Exists (fun m => exists e, msg_waitForStatus m = Throw e) messages ->
  exists e, fst (run (track txReceipt orbitPublicClient)) = Throw e.
Proof.
  intros Hmessages Hex.
  destruct (Promise_all_waits_rejected messages [CallGetL1ToL2Messages] Hex)
    as (m & e & _ & _ & Hjoin).
  exists e. unfold waitForRetryables, run, bind at 1, call.
  rewrite Hmessages. unfold bind at 1. cbn [app].
  destruct (Promise_all (map waitForStatus messages) [CallGetL1ToL2Messages])
    as [joined log]. cbn [fst] in Hjoin. now subst joined.
Qed.

(** X14.  A call that returns hands back exactly one receipt: the parent
    receipt derived exactly one message, its wait resolved as redeemed, and
    the receipt is the converted receipt of that redemption. *)
Theorem waitForRetryables_returns_single_redemption
    (txReceipt : TransactionReceipt) (orbitPublicClient : OrbitPublicClient)
    (receipts : list TransactionReceipt) :
  fst (run (track txReceipt orbitPublicClient)) = OK receipts ->
  exists message ticket,
    getL1ToL2Messages (viemToEthers txReceipt) (publicClientToProvider orbitPublicClient)
      = OK [message]
    /\ msg_waitForStatus message = OK (WaitRedeemed ticket)
    /\ receipts = [ethersToViem (l2TxReceipt ticket)].
Proof.
  intros Hok.
  destruct (getL1ToL2Messages (viemToEthers txReceipt)
              (publicClientToProvider orbitPublicClient)) as [messages|e] eqn:Hmessages.
  2:{ unfold waitForRetryables, run, bind at 1, call in Hok.
      rewrite Hmessages in Hok. discriminate. }
  destruct (waits_resolved_or_rejected messages) as [[results Hresults]|Hex].
  2:{ destruct (waitForRetryables_rejected txReceipt orbitPublicClient messages
                  Hmessages Hex) as [e He].
      rewrite He in Hok. discriminate. }
  rewrite (waitForRetryables_resolved viemToEthers ethersToViem publicClientToProvider
             getL1ToL2Messages txReceipt orbitPublicClient messages results
             Hmessages Hresults) in Hok.
  destruct Hresults as [|m r ms rs Hm Hrest]; [discriminate|].
  destruct Hrest as [|m' r' ms' rs' Hm' Hrest']; [|discriminate].
  destruct r as [ticket|s]; [|discriminate].
  injection Hok as <-. now exists m, ticket.
Qed.

(** X15.  When the messages of the parent receipt cannot be derived, the
    call fails with the derivation's error and starts no wait. *)
Theorem waitForRetryables_derivation_failure
    (txReceipt : TransactionReceipt) (orbitPublicClient : OrbitPublicClient) (e : Error) :
  getL1ToL2Messages (viemToEthers txReceipt) (publicClientToProvider orbitPublicClient)
    = Throw e ->
  run (track txReceipt orbitPublicClient) = (Throw e, [CallGetL1ToL2Messages]).
Proof.
  intros Hmessages. unfold waitForRetryables, run, bind at 1, call.
  now rewrite Hmessages.
Qed.

(** X16.  When the derivation and every wait resolve, the call ends in one
    of three ways and no other: the one converted receipt of a single
    redeemed ticket, [TicketNotRedeemed] for a single ticket of another
    status, [UnexpectedTicketCount] for a number of tickets other than one.
    In particular the index accesses and the casts behind the two guards
    never fail. *)
Theorem waitForRetryables_outcomes
    (txReceipt : TransactionReceipt) (orbitPublicClient : OrbitPublicClient)
    (messages : list (L1ToL2Message EthersTransactionReceipt))
    (results : list (L1ToL2MessageWaitResult EthersTransactionReceipt)) :
  getL1ToL2Messages (viemToEthers txReceipt) (publicClientToProvider orbitPublicClient)
    = OK messages ->
  Forall2 (fun m r => msg_waitForStatus m = OK r) messages results ->
  let outcome := fst (run (track txReceipt orbitPublicClient)) in
  (exists message ticket,
      messages = [message] /\ results = [WaitRedeemed ticket]
      /\ outcome = OK [ethersToViem (l2TxReceipt ticket)])
  \/ (exists message s,
        messages = [message] /\ results = [WaitUnredeemed s]
        /\ outcome = Throw (TicketNotRedeemed (retryableCreationId message)))
  \/ (length messages <> 1%nat
      /\ outcome = Throw (UnexpectedTicketCount (length messages))).
Proof.
  intros Hmessages Hresults outcome. subst outcome.
  rewrite (waitForRetryables_resolved viemToEthers ethersToViem publicClientToProvider
             getL1ToL2Messages txReceipt orbitPublicClient messages results
             Hmessages Hresults).
  rewrite <- (Forall2_length _ _ _ Hresults).
  destruct Hresults as [|m r ms rs Hm Hrest].
  - right. right. split; [discriminate|reflexivity].
  - destruct Hrest as [|m' r' ms' rs' Hm' Hrest'].
    + destruct r as [ticket|s].
      * left. now exists m, ticket.
      * right. left. now exists m, s.
    + right. right. split; [discriminate|reflexivity].
Qed.

End TrackerOutcomes.

(** ** Further worked examples *)

Lemma rollupParams_valid_on (publicClient : PublicClient) :
  pc_chain publicClient = Some {| chain_id := 1 |} ->
  validationPasses demoEnv publicClient rollupParams 1.
Proof.
  intros Hchain. split.
  - split; [|repeat split; compute_done].
    unfold validateParentChain. rewrite Hchain. reflexivity.
  - exists {| DataAvailabilityCommittee := false |}.
    split; [reflexivity|]. intros Htoken. now contradiction Htoken.
Defined.

(** X1 on mainnet: the parameters of a returned request are valid. *)
Lemma build_returns_only_valid_witness :
  validationPasses demoEnv (demoClient (Some 1) [] (Some 21001) 18) rollupParams 1.
Proof.
  apply (build_returns_only_valid demoEnv rollupParams demoAccount
           (demoClient (Some 1) [] (Some 21001) 18) None None
           {| request := demoPrepared (Some 21001); chainId := 1 |}).
  vm_compute. reflexivity.
Defined.

(** X2 with [{ base: 1000000n, percentIncrease: 20 }]: only the gas of the
    prepared request changed. *)
Lemma build_override_touches_gas_only_witness :
  exists to data prepared,
    pc_prepareTransactionRequest (demoClient (Some 1) [] (Some 21001) 18)
      (requestParameters demoEnv (demoClient (Some 1) [] (Some 21001) 18) demoAccount
         (demoOverrides (Some 1000000) 20)
         {| fi_params := rollupParams; fi_maxDataSize := 104857 |} to data) = OK prepared
    /\ tx_to (demoPrepared (Some 1200000)) = tx_to prepared
    /\ tx_account (demoPrepared (Some 1200000)) = tx_account prepared.
Proof.
  destruct (build_override_touches_gas_only demoEnv rollupParams demoAccount
              (demoClient (Some 1) [] (Some 21001) 18)
              (demoOverrides (Some 1000000) 20) None
              {| request := demoPrepared (Some 1200000); chainId := 1 |})
    as (to & data & prepared & _ & _ & Hprepared & Hto & _ & _ & Haccount & _).
  - vm_compute. reflexivity.
  - exists to, data, prepared.
    split; [exact Hprepared|]. split; [exact Hto|exact Haccount].
Defined.

(** X3 with [gasOverrides: {}]: the client's estimate is returned as it is. *)
Lemma build_without_gas_limit_override_witness :
  run (createRollupPrepareTransactionRequest demoEnv rollupParams demoAccount
         (demoClient (Some 1) [] (Some 21001) 18) (Some {| gasLimit := None |}) None)
  = (OK {| request := demoPrepared (Some 21001); chainId := 1 |},
     [CallPrepareTransactionRequest
        (requestParameters demoEnv (demoClient (Some 1) [] (Some 21001) 18) demoAccount
           (Some {| gasLimit := None |})
           {| fi_params := rollupParams; fi_maxDataSize := 104857 |} demoCreator
           "0xcb73d6e2")]).
Proof.
  apply (proj2 (build_without_gas_limit_override demoEnv rollupParams demoAccount
                  (demoClient (Some 1) [] (Some 21001) 18) (Some {| gasLimit := None |})
                  None 1 demoCreator "0xcb73d6e2" (demoPrepared (Some 21001))
                  (rollupParams_valid (Some 21001)) eq_refl eq_refl eq_refl eq_refl)).
Defined.

(** X4: the client is down when the request is prepared. *)
Lemma build_preparation_failure_passes_through_witness :
  fst (run (createRollupPrepareTransactionRequest demoEnv rollupParams demoAccount
              (failingClient (Some 1) "rpc down") (demoOverrides (Some 1000000) 20) None))
  = Throw (External "rpc down").
Proof.
  rewrite (build_preparation_failure_passes_through demoEnv rollupParams demoAccount
             (failingClient (Some 1) "rpc down") (demoOverrides (Some 1000000) 20) None
             1 demoCreator "0xcb73d6e2" (External "rpc down")
             (rollupParams_valid_on (failingClient (Some 1) "rpc down") eq_refl)
             eq_refl eq_refl eq_refl).
  reflexivity.
Defined.

(** X5: the client is down when the decimals of [demoToken] are read. *)
Lemma build_decimals_failure_passes_through_witness :
  run (createRollupPrepareTransactionRequest demoEnv anyTrustParams demoAccount
         (failingClient (Some 1) "rpc down") None None)
  = (Throw (External "rpc down"), [CallDecimals demoToken]).
Proof.
  apply (build_decimals_failure_passes_through demoEnv anyTrustParams demoAccount
           (failingClient (Some 1) "rpc down") None None
           1 {| DataAvailabilityCommittee := true |} (External "rpc down")).
  - repeat split; compute_done.
  - reflexivity.
  - compute_done.
  - reflexivity.
  - reflexivity.
Defined.

(** X7: a registry without a creator for the chain, and no override. *)
Lemma build_creator_lookup_failure_witness :
  run (createRollupPrepareTransactionRequest
         (withGetRollupCreatorAddress demoEnv (fun _ => Throw (External "no rollup creator")))
         rollupParams demoAccount (demoClient (Some 1) [] (Some 21001) 18) None None)
  = (Throw (External "no rollup creator"), []).
Proof.
  apply (build_creator_lookup_failure
           (withGetRollupCreatorAddress demoEnv
              (fun _ => Throw (External "no rollup creator")))
           rollupParams demoAccount (demoClient (Some 1) [] (Some 21001) 18) None None
           1 (External "no rollup creator")
           (rollupParams_valid (Some 21001)) eq_refl eq_refl).
Defined.

(** X8: the same registry, and an override. *)
Lemma build_address_override_wins_witness :
  exists p,
    last (snd (run (createRollupPrepareTransactionRequest demoEnv rollupParams demoAccount
                      (demoClient (Some 1) [] (Some 21001) 18) None (Some demoToken))))
    = Some (CallPrepareTransactionRequest p)
    /\ ptr_to p = demoToken
    /\ ptr_data p = "0xcb73d6e2".
Proof.
  apply (proj2 (build_address_override_wins demoEnv rollupParams demoAccount
                  (demoClient (Some 1) [] (Some 21001) 18) None demoToken
                  (fun _ => Throw (External "no rollup creator")) 1 "0xcb73d6e2"
                  (rollupParams_valid (Some 21001)) eq_refl)).
Defined.

(** X9 on mainnet. *)
Lemma fetchTransactionHash_returns_event_hash_witness :
  exists cid event,
    validateParentChain demoEnv
      (demoClient (Some 1) [{| log_transactionHash := Some demoHash |}] None 18) = OK cid
    /\ log_transactionHash event = Some demoHash
    /\ demoHash <> "".
Proof.
  destruct (fetchTransactionHash_returns_event_hash demoEnv demoRollup
              (demoClient (Some 1) [{| log_transactionHash := Some demoHash |}] None 18)
              demoHash)
    as (cid & event & Hchain & _ & Hhash & Hne).
  - vm_compute. reflexivity.
  - exists cid, event. split; [exact Hchain|]. split; [exact Hhash|exact Hne].
Defined.

(** X10 on Goerli. *)
Lemma fetchTransactionHash_unvalidated_chain_witness :
  run (createRollupFetchTransactionHash demoEnv demoRollup
         (demoClient (Some 5) [{| log_transactionHash := Some demoHash |}] None 18))
  = (Throw UnsupportedParentChain, []).
Proof.
  apply (fetchTransactionHash_unvalidated_chain demoEnv demoRollup
           (demoClient (Some 5) [{| log_transactionHash := Some demoHash |}] None 18)
           UnsupportedParentChain).
  vm_compute. reflexivity.
Defined.

(** X11 on mainnet, with the client down. *)
Lemma fetchTransactionHash_query_failure_witness :
  fst (run (createRollupFetchTransactionHash demoEnv demoRollup
              (failingClient (Some 1) "rpc down")))
  = Throw (External "rpc down").
Proof.
  rewrite (fetchTransactionHash_query_failure demoEnv demoRollup
             (failingClient (Some 1) "rpc down") 1 (External "rpc down") eq_refl eq_refl).
  reflexivity.
Defined.

(** X13 for the chain ids of [knownChains]. *)
Lemma fromBlock_of_each_chain_witness :
  fromBlock knownChains 42161 = BlockNumber 150599584.
Proof.
  refine (proj1 (proj2 (fromBlock_of_each_chain knownChains _))).
  compute_done.
Defined.

(** X14: the one receipt of a redeemed ticket. *)
Lemma waitForRetryables_returns_single_redemption_witness :
  exists message ticket,
    msg_waitForStatus message = OK (WaitRedeemed ticket)
    /\ ["viem:redeem-aa01"] = [demoToViem (l2TxReceipt ticket)].
Proof.
  destruct (waitForRetryables_returns_single_redemption demoToEthers demoToViem demoProvider
              (fun _ _ => OK [redeemedMessage]) "deploy-tx" "orbit" ["viem:redeem-aa01"])
    as (message & ticket & _ & Hwait & Hreceipts).
  - vm_compute. reflexivity.
  - exists message, ticket. split; [exact Hwait|exact Hreceipts].
Defined.

(** X15: the provider cannot derive the messages. *)
Lemma waitForRetryables_derivation_failure_witness :
  run (waitForRetryables demoToEthers demoToViem demoProvider
         (fun _ _ => Throw (External "rpc down")) "deploy-tx" "orbit")
  = (Throw (External "rpc down"), [CallGetL1ToL2Messages]).
Proof.
  apply (waitForRetryables_derivation_failure demoToEthers demoToViem demoProvider
           (fun _ _ => Throw (External "rpc down")) "deploy-tx" "orbit"
           (External "rpc down")).
  reflexivity.
Defined.

(** X16: two tickets, both waits resolved. *)
Lemma waitForRetryables_outcomes_witness :
  fst (run (waitForRetryables demoToEthers demoToViem demoProvider
              (fun _ _ => OK [expiredMessage; redeemedMessage]) "deploy-tx" "orbit"))
  = Throw (UnexpectedTicketCount 2).
Proof.
  destruct (waitForRetryables_outcomes demoToEthers demoToViem demoProvider
              (fun _ _ => OK [expiredMessage; redeemedMessage]) "deploy-tx" "orbit"
              [expiredMessage; redeemedMessage]
              [WaitUnredeemed Expired; WaitRedeemed {| l2TxReceipt := "redeem-aa01" |}])
    as [(message & ticket & Hone & _)|[(message & s & Hone & _)|[_ Hcount]]].
  - reflexivity.
  - repeat constructor.
  - discriminate Hone.
  - discriminate Hone.
  - exact Hcount.
Defined.
